(** * KuberAI simulation: price fallback, trend analysis, query classification
      and purchase recording

    A shallow embedding of [app/main.py], [app/schemas.py] and [app/models.py].
    Python exceptions are values of [exn] carried by [result]; Python objects
    read from JSON are values of [value]; floats are the kernel's binary64
    floats, so that the arithmetic of the handlers is computed bit for bit. *)

From Stdlib Require Import ZArith List String Ascii Bool Lia.
From Stdlib Require Import Permutation Sorted RelationClasses.
From Stdlib Require Import Floats DecimalString.
Import ListNotations.

Set Warnings "-register-all,-inexact-float".

Local Open Scope string_scope.
Local Open Scope Z_scope.

(* ================================================================== *)
(** * Part I: the program *)
(* ================================================================== *)

(** ** The Python runtime the handlers rely on *)

Module Py.

(** The exceptions the modelled code raises or catches. *)
Inductive exn : Type :=
| FileNotFoundError
| PermissionError
| IsADirectoryError
| UnicodeDecodeError
| JSONDecodeError
| KeyError (key : string)
| TypeError
| ValueError
| IndexError
| ZeroDivisionError
| RequestException
| IntegrityError
| HTTPException (status_code : Z) (detail : string).

(** A computation either returns or raises. *)
Inductive result (A : Type) : Type :=
| Ok (a : A)
| Raise (e : exn).

Arguments Ok {A} a.
Arguments Raise {A} e.

Definition bind {A B : Type} (r : result A) (k : A -> result B) : result B :=
  match r with
  | Ok a => k a
  | Raise e => Raise e
  end.

Notation "x <- e ;; k" := (bind e (fun x => k))
  (at level 61, e at next level, right associativity).

Fixpoint mapM {A B : Type} (f : A -> result B) (l : list A) : result (list B) :=
  match l with
  | [] => Ok []
  | x :: l' => y <- f x ;; ys <- mapM f l' ;; Ok (y :: ys)
  end.

(** What [json.load] and [r.json()] hand back: [None], [bool], a number,
    [str], [list] or [dict].  A JSON number is kept as a binary64 float: an
    [int] below 2^53 in magnitude is the same number, and subtraction and
    true division of such ints give the results of the float operations.
    A [dict] is its list of items in insertion order; a lookup takes the
    first item with the key. *)
Inductive value : Type :=
| VNone
| VBool (b : bool)
| VNum (f : float)
| VStr (s : string)
| VList (items : list value)
| VDict (items : list (string * value)).

Fixpoint lookup (k : string) (items : list (string * value)) : option value :=
  match items with
  | [] => None
  | (k', v) :: rest => if String.eqb k k' then Some v else lookup k rest
  end.

(** [bool(x)] for a list: non-empty. *)
Definition truthy_list {A : Type} (l : list A) : bool :=
  match l with [] => false | _ :: _ => true end.

(** [x[k]] with a [str] subscript: only a [dict] accepts it. *)
Definition getitem (x : value) (k : string) : result value :=
  match x with
  | VDict items =>
      match lookup k items with
      | Some v => Ok v
      | None => Raise (KeyError k)
      end
  | _ => Raise TypeError
  end.

(** ** Strings

    A [string] stands for a Python [str] whose code points are below U+0100;
    an [ascii] is its code point. *)

Definition code (c : ascii) : N := N_of_ascii c.

Definition in_range (lo hi : N) (c : ascii) : bool :=
  (N.leb lo (code c) && N.leb (code c) hi)%bool.

(** [str.lower] on one code point: A-Z, and U+00C0..U+00DE but U+00D7. *)
Definition lower_char (c : ascii) : ascii :=
  if (in_range 65 90 c || in_range 192 214 c || in_range 216 222 c)%bool
  then ascii_of_N (code c + 32)
  else c.

Fixpoint lower (s : string) : string :=
  match s with
  | EmptyString => EmptyString
  | String c s' => String (lower_char c) (lower s')
  end.

(** [k in q] for two strings: [k] occurs in [q] as a contiguous substring. *)
Fixpoint contains (k q : string) : bool :=
  (String.prefix k q ||
   match q with
   | EmptyString => false
   | String _ q' => contains k q'
   end)%bool.

(** [\w] of the [re] module on a [str] pattern: alphanumeric or underscore. *)
Definition is_word_char (c : ascii) : bool :=
  (in_range 48 57 c || in_range 65 90 c || N.eqb (code c) 95 ||
   in_range 97 122 c || N.eqb (code c) 170 || in_range 178 179 c ||
   N.eqb (code c) 181 || in_range 185 186 c || in_range 188 190 c ||
   in_range 192 214 c || in_range 216 246 c || in_range 248 255 c)%bool.

Definition is_word (c : option ascii) : bool :=
  match c with
  | Some c => is_word_char c
  | None => false
  end.

(** [\b] between the character before a position and the one after it; the
    two ends of the string count as non-word characters. *)
Definition word_boundary (before after : option ascii) : bool :=
  xorb (is_word before) (is_word after).

Definition head (s : string) : option ascii :=
  match s with
  | EmptyString => None
  | String c _ => Some c
  end.

(** A literal of the pattern matched at the front of [s] under [re.I]:
    the rest of [s] and the last character consumed. *)
Fixpoint match_literal (lit s : string) (before : option ascii)
  : option (option ascii * string) :=
  match lit with
  | EmptyString => Some (before, s)
  | String p lit' =>
      match s with
      | EmptyString => None
      | String c s' =>
          if Ascii.eqb (lower_char c) (lower_char p)
          then match_literal lit' s' (Some c)
          else None
      end
  end.

(** [\b lit \b] matched at the front of [s], [before] being the character
    that precedes it. *)
Definition match_word (lit : string) (before : option ascii) (s : string) : bool :=
  (word_boundary before (head s) &&
   match match_literal lit s before with
   | Some (last, rest) => word_boundary last (head rest)
   | None => false
   end)%bool.

(** [re.search] for an alternation of [\b lit \b] branches: the leftmost
    position at which some branch matches. *)
Fixpoint search_words (lits : list string) (before : option ascii) (s : string) : bool :=
  (existsb (fun lit => match_word lit before s) lits ||
   match s with
   | EmptyString => false
   | String c s' => search_words lits (Some c) s'
   end)%bool.

(** [str.isspace] on one code point. *)
Definition is_space (c : ascii) : bool :=
  (in_range 9 13 c || in_range 28 32 c || N.eqb (code c) 133 ||
   N.eqb (code c) 160)%bool.

(** [s.split()] reading [s] with the word begun so far in [current]: runs
    of whitespace separate the words, and no word is empty. *)
Fixpoint split_from (current s : string) : list string :=
  match s with
  | EmptyString =>
      match current with
      | EmptyString => []
      | _ => [current]
      end
  | String c s' =>
      if is_space c then
        match current with
        | EmptyString => split_from "" s'
        | _ => current :: split_from "" s'
        end
      else split_from (current ++ String c "") s'
  end.

(** [s.split()] *)
Definition split (s : string) : list string := split_from "" s.

(** [s.lstrip()], [s.rstrip()] and [s.strip()] *)
Fixpoint lstrip (s : string) : string :=
  match s with
  | EmptyString => EmptyString
  | String c s' => if is_space c then lstrip s' else s
  end.

Fixpoint rstrip (s : string) : string :=
  match s with
  | EmptyString => EmptyString
  | String c s' =>
      match rstrip s' with
      | EmptyString => if is_space c then EmptyString else String c EmptyString
      | t => String c t
      end
  end.

Definition strip (s : string) : string := rstrip (lstrip s).

(** [s] without its first [n] characters. *)
Fixpoint drop (n : nat) (s : string) : string :=
  match n, s with
  | S n', String _ s' => drop n' s'
  | _, _ => s
  end.

(** [s.split(sep, 1)]: the text before the first [sep], and the text after
    it if [sep] occurs. *)
Fixpoint split_once (sep s : string) : string * option string :=
  if String.prefix sep s then (EmptyString, Some (drop (String.length sep) s))
  else
    match s with
    | EmptyString => (EmptyString, None)
    | String c s' =>
        let (before, after) := split_once sep s' in (String c before, after)
    end.

(** [bool(x)] *)
Definition truthy (v : value) : bool :=
  match v with
  | VNone => false
  | VBool b => b
  | VNum f => negb (f =? 0)%float
  | VStr s => negb (String.eqb s EmptyString)
  | VList items => truthy_list items
  | VDict items => truthy_list items
  end.

(** [len(x)] *)
Definition len (v : value) : result Z :=
  match v with
  | VStr s => Ok (Z.of_nat (String.length s))
  | VList items => Ok (Z.of_nat (List.length items))
  | VDict items => Ok (Z.of_nat (List.length items))
  | _ => Raise TypeError
  end.

(** ** Floats

    [round(x, ndigits)] and [format(x, ".2f")] round the exact binary value of
    [x] to a decimal, ties to the even digit; [round] then takes the binary64
    nearest to that decimal. *)

(** [num / den] rounded to the nearest integer, ties to even
    ([0 <= num], [0 < den]). *)
Definition div_half_even (num den : Z) : Z :=
  let q := num / den in
  match 2 * (num mod den) ?= den with
  | Lt => q
  | Gt => q + 1
  | Eq => if Z.even q then q else q + 1
  end.

(** [m * 2^e * 10^nd] rounded to the nearest integer, ties to even. *)
Definition scaled_digits (m : positive) (e : Z) (nd : nat) : Z :=
  if 0 <=? e then Z.pos m * 2 ^ e * 10 ^ Z.of_nat nd
  else div_half_even (Z.pos m * 10 ^ Z.of_nat nd) (2 ^ (- e)).

(** The binary64 nearest to [n / 10^nd], with the sign [neg]. *)
Definition decimal_to_float (neg : bool) (n : Z) (nd : nat) : float :=
  match n with
  | Z.pos p =>
      SF2Prim (SFdiv prec emax (S754_finite neg p 0)
                 (S754_finite false (Z.to_pos (10 ^ Z.of_nat nd)) 0))
  | _ => if neg then neg_zero else zero
  end.

(** [round(x, ndigits)] for a float [x] and [0 <= ndigits]; NaN, the
    infinities and the zeros round to themselves. *)
Definition round_float (x : float) (ndigits : nat) : float :=
  match Prim2SF x with
  | S754_finite s m e => decimal_to_float s (scaled_digits m e ndigits) ndigits
  | _ => x
  end.

Definition digit (n : Z) : ascii := ascii_of_N (48 + Z.to_N n).

(** The last [k] decimal digits of [n], most significant first. *)
Fixpoint last_digits (k : nat) (n : Z) : string :=
  match k with
  | O => ""
  | S k' => last_digits k' (n / 10) ++ String (digit (n mod 10)) ""
  end.

(** The decimal numeral of [0 <= n]. *)
Definition numeral (n : Z) : string :=
  DecimalString.NilZero.string_of_uint (N.to_uint (Z.to_N n)).

(** [n / 10^nd] written with exactly [nd] digits after the point. *)
Definition fixed_point (n : Z) (nd : nat) : string :=
  numeral (n / 10 ^ Z.of_nat nd) ++ "." ++ last_digits nd n.

(** [format(x, ".<nd>f")], [1 <= nd]. *)
Definition format_f (x : float) (nd : nat) : string :=
  match Prim2SF x with
  | S754_nan => "nan"
  | S754_infinity s => if s then "-inf" else "inf"
  | S754_zero s => (if s then "-" else "") ++ fixed_point 0 nd
  | S754_finite s m e =>
      (if s then "-" else "") ++ fixed_point (scaled_digits m e nd) nd
  end.

(** A number as the arithmetic operators see it: a float, or a [bool]
    counting as 1 or 0. *)
Definition as_number (v : value) : option float :=
  match v with
  | VNum f => Some f
  | VBool b => Some (if b then one else zero)
  | _ => None
  end.

(** [a - b] *)
Definition sub (a b : value) : result float :=
  match as_number a, as_number b with
  | Some x, Some y => Ok (x - y)%float
  | _, _ => Raise TypeError
  end.

(** [x / b]: true division of a float by a number. *)
Definition truediv (x : float) (b : value) : result float :=
  match as_number b with
  | Some y => if (y =? 0)%float then Raise ZeroDivisionError else Ok (x / y)%float
  | None => Raise TypeError
  end.

End Py.

Import Py.

(** ** Query classifier *)

Module Classifier.

Definition price_terms : list string := ["price"; "rate"; "current"; "today"].
Definition history_terms : list string := ["history"; "past"; "last"; "trend"].
Definition prediction_terms : list string := ["predict"; "forecast"; "future"; "will"].

(** [any(k in q for k in terms)] *)
Definition any_in (terms : list string) (q : string) : bool :=
  existsb (fun k => contains k q) terms.

Definition _keyword_classify (question : string) : string :=
  let q := lower question in
  if any_in price_terms q then "current_price"
  else if any_in history_terms q then "history"
  else if any_in prediction_terms q then "prediction"
  else "general_info".

(** The branches of [r"\bgold\b|\bdigital gold\b|\bxau\b"]. *)
Definition gold_words : list string := ["gold"; "digital gold"; "xau"].

Definition _is_gold_by_keyword (question : string) : bool :=
  search_words gold_words None question.

End Classifier.

(** ** Backup price store *)

(** [datetime.fromisoformat] and the order of [datetime] values belong to the
    interpreter: which strings parse depends on its version, and [<] raises
    [TypeError] between a naive and an aware value.  They are an interface. *)
Class Datetime : Type := {
  datetime : Type;
  (** [None]: [ValueError]. *)
  fromisoformat : string -> option datetime;
  (** [None]: [TypeError]. *)
  dt_lt : datetime -> datetime -> option bool
}.

Module Backup.

(** What [open('gold_data_backup.json', 'r')] followed by [json.load] meets:
    no such file; a path that cannot be opened or read as text, [open] or the
    read inside [json.load] raising [e] ([PermissionError],
    [IsADirectoryError], [UnicodeDecodeError] on bytes that are not text in
    the locale's encoding, ...); text that [json.load] rejects with
    [JSONDecodeError]; or a JSON document. *)
Inductive snapshot : Type :=
| NoSuchFile
| Unreadable (e : exn)
| NotJson
| Json (data : value).

Definition load (file : snapshot) : result value :=
  match file with
  | NoSuchFile => Raise FileNotFoundError
  | Unreadable e => Raise e
  | NotJson => Raise JSONDecodeError
  | Json data => Ok data
  end.

(** The items [sorted] draws from its argument. *)
Definition iterate (data : value) : result (list value) :=
  match data with
  | VList items => Ok items
  | VDict items => Ok (map (fun kv => VStr (fst kv)) items)
  | VStr s => Ok (map (fun c => VStr (String c "")) (list_ascii_of_string s))
  | _ => Raise TypeError
  end.

Section Sorting.
Context {A K : Type}.
Variable lt : K -> K -> result bool.

(** [sorted] is stable and compares with [<] only: an item goes past those
    that are smaller and stops before the first that is not. *)
Fixpoint insert (x : K * A) (l : list (K * A)) : result (list (K * A)) :=
  match l with
  | [] => Ok [x]
  | y :: l' =>
      smaller <- lt (fst y) (fst x) ;;
      if (smaller : bool) then (r <- insert x l' ;; Ok (y :: r))
      else Ok (x :: y :: l')
  end.

Fixpoint sort_keyed (l : list (K * A)) : result (list (K * A)) :=
  match l with
  | [] => Ok []
  | x :: l' => s <- sort_keyed l' ;; insert x s
  end.

(** [sorted(l, key=key)]: every key is computed first, then the items are
    ordered by their keys. *)
Definition sorted (key : A -> result K) (l : list A) : result (list A) :=
  keyed <- mapM (fun x => k <- key x ;; Ok (k, x)) l ;;
  s <- sort_keyed keyed ;;
  Ok (map snd s).

End Sorting.

Section WithDatetime.
Context {D : Datetime}.

(** [lambda x: datetime.fromisoformat(x['date'])] *)
Definition date_key (x : value) : result datetime :=
  d <- getitem x "date" ;;
  match d with
  | VStr s =>
      match fromisoformat s with
      | Some t => Ok t
      | None => Raise ValueError
      end
  | _ => Raise TypeError
  end.

Definition date_lt (a b : datetime) : result bool :=
  match dt_lt a b with
  | Some r => Ok r
  | None => Raise TypeError
  end.

Definition get_backup_gold_data (file : snapshot) : result (list value) :=
  match (data <- load file ;; items <- iterate data ;; sorted date_lt date_key items) with
  | Raise FileNotFoundError | Raise JSONDecodeError => Ok []
  | r => r
  end.

End WithDatetime.

End Backup.

(** ** Live price fetcher *)

Module LivePrice.
Import Backup.

(** What a call of [get_live_gold_price] meets: the credential, the outcome
    of the spot request ([requests.get], [raise_for_status] and [r.json()],
    any exception of which is [Raise]), and the snapshot file. *)
Record environment : Type := {
  GOLD_API_KEY : option string;
  spot_response : result value;
  backup_file : snapshot
}.

(** [if GOLD_API_KEY:] *)
Definition has_key (k : option string) : bool :=
  match k with
  | Some s => negb (String.eqb s "")
  | None => false
  end.

(** [k in data] *)
Definition contains_key (k : string) (data : value) : result bool :=
  match data with
  | VDict items => Ok (match lookup k items with Some _ => true | None => false end)
  | VList items =>
      Ok (existsb (fun v => match v with VStr s => String.eqb s k | _ => false end) items)
  | VStr s => Ok (contains k s)
  | _ => Raise TypeError
  end.

(** [round(v, ndigits)] *)
Definition round_value (v : value) (ndigits : nat) : result value :=
  match as_number v with
  | Some f => Ok (VNum (round_float f ndigits))
  | None => Raise TypeError
  end.

(** The body of the [try]: the value it returns, if it returns one. *)
Definition live_attempt (response : result value) : result (option value) :=
  data <- response ;;
  found <- contains_key "price_gram_24k" data ;;
  if (found : bool) then
    p <- getitem data "price_gram_24k" ;;
    r <- round_value p 2 ;;
    Ok (Some (VDict [("source", VStr "live"); ("current_price_inr_per_gram", r)]))
  else Ok None.

(** The [if GOLD_API_KEY: try ... except Exception: pass] block. *)
Definition live_price (env : environment) : option value :=
  if has_key (GOLD_API_KEY env) then
    match live_attempt (spot_response env) with
    | Ok (Some d) => Some d
    | _ => None
    end
  else None.

(** [l[-1]] *)
Definition last_item (l : list value) : result value :=
  match rev l with
  | x :: _ => Ok x
  | [] => Raise IndexError
  end.

Definition unavailable : string :=
  "Failed to fetch live gold price and backup is unavailable.".

Section WithDatetime.
Context {D : Datetime}.

Definition get_live_gold_price (env : environment) : result value :=
  match live_price env with
  | Some d => Ok d
  | None =>
      backup_data <- get_backup_gold_data (backup_file env) ;;
      if truthy_list backup_data then
        latest_entry <- last_item backup_data ;;
        price <- getitem latest_entry "price" ;;
        Ok (VDict [("source", VStr "backup"); ("current_price_inr_per_gram", price)])
      else Ok (VDict [("error", VStr unavailable)])
  end.

End WithDatetime.

End LivePrice.

(** ** Trend analyzer *)

Module Trend.

(** [history[-period:]] *)
Definition trailing (history : list value) (period : Z) : list value :=
  let n := Z.of_nat (List.length history) in
  let start := if 0 <? period then Z.max (n - period) 0 else Z.min (- period) n in
  skipn (Z.to_nat start) history.

Definition first_item {A : Type} (l : list A) : result A :=
  match l with
  | x :: _ => Ok x
  | [] => Raise IndexError
  end.

Definition final_item {A : Type} (l : list A) : result A :=
  first_item (rev l).

(** [((end_price - start_price) / start_price) * 100] *)
Definition percent_change (start_price end_price : value) : result float :=
  d <- sub end_price start_price ;;
  q <- truediv d start_price ;;
  Ok (q * 100)%float.

Definition analyze_trend (history : list value) (period : Z) : result float :=
  if (negb (truthy_list history) || (Z.of_nat (List.length history) <? 2))%bool then Ok zero
  else
    recent_prices <- mapM (fun entry => getitem entry "price") (trailing history period) ;;
    start_price <- first_item recent_prices ;;
    end_price <- final_item recent_prices ;;
    percent_change start_price end_price.

(** The literal [0.1]. *)
Definition tenth : float := Eval cbv in (1 / 10)%float.

Definition trend_phrase (change : float) : string :=
  if (tenth <? change)%float then "increased by " ++ format_f change 2 ++ "%"
  else if (change <? - tenth)%float then "decreased by " ++ format_f (abs change) 2 ++ "%"
  else "been relatively stable".

Definition generate_trend_text (history : list value) : result string :=
  if negb (truthy_list history) then Ok "No sufficient data to determine trend."
  else
    short_term <- analyze_trend history 7 ;;
    long_term <- analyze_trend history
                   (if 30 <=? Z.of_nat (List.length history) then 30
                    else Z.of_nat (List.length history)) ;;
    Ok ("Gold prices have " ++ trend_phrase short_term ++
        " over the last 7 days and have " ++ trend_phrase long_term ++
        " over the last 30 days.").

End Trend.

(** ** Price history *)

Module PriceHistory.
Import Backup LivePrice Trend.

(** [[{"date": entry["date"], "price": round(entry["price"], 2)}
      for entry in data]] *)
Definition rounded_entry (entry : value) : result value :=
  d <- getitem entry "date" ;;
  p <- getitem entry "price" ;;
  r <- round_value p 2 ;;
  Ok (VDict [("date", d); ("price", r)]).

(** The body of the [try] of [get_gold_price_history]. *)
Definition live_history_attempt (response : result value) : result (option value) :=
  data <- response ;;
  match data with
  | VList entries =>
      if truthy_list entries then
        history <- mapM rounded_entry entries ;;
        Ok (Some (VDict [("source", VStr "live"); ("history", VList history)]))
      else Ok None
  | _ => Ok None
  end.

(** The [if GOLD_API_KEY: try ... except Exception: pass] block of
    [get_gold_price_history]; [response] is the outcome of the history
    request for the period asked. *)
Definition live_history (env : environment) (response : result value) : option value :=
  if has_key (GOLD_API_KEY env) then
    match live_history_attempt response with
    | Ok (Some d) => Some d
    | _ => None
    end
  else None.

Definition history_unavailable : string :=
  "Failed to fetch gold price history and backup is unavailable.".

Section WithDatetime.
Context {D : Datetime}.

Definition get_gold_price_history (env : environment) (response : result value)
           (days : Z) : result value :=
  match live_history env response with
  | Some d => Ok d
  | None =>
      backup_data <- get_backup_gold_data (backup_file env) ;;
      if truthy_list backup_data then
        let history :=
          if days <=? Z.of_nat (List.length backup_data)
          then trailing backup_data days
          else backup_data in
        Ok (VDict [("source", VStr "backup"); ("history", VList history)])
      else Ok (VDict [("error", VStr history_unavailable)])
  end.

End WithDatetime.

End PriceHistory.

(** ** Response composer *)

Module Composer.

Definition _clean_text (s : string) : string :=
  match s with
  | EmptyString => s
  | _ => String.concat " " (split s)
  end.

End Composer.

(** ** The conversational endpoint *)

Module Assistant.
Import Classifier Backup LivePrice Trend PriceHistory Composer.

(** What the three calls of [gemini_model.generate_content(...).text] give:
    the answer to "is this about gold", the intent, and the fused reply.
    The prompts go to the model and come back in no other way. *)
Record gemini : Type := {
  about_gold : result string;
  intent : result string;
  fusion : result string
}.

(** What a call of the endpoint meets: the environment of the price
    helpers, the outcomes of the history requests for 30 and for 90 days,
    and the model, if one was configured. *)
Record world : Type := {
  prices : environment;
  history_30d : result value;
  history_90d : result value;
  gemini_model : option gemini
}.

(** [schemas.KuberResponse] *)
Record KuberResponse : Type := {
  is_gold_query : bool;
  answer : string;
  extra_insights : option string;
  simplify_suggestion : option string;
  nudge_text : option string
}.

Definition refusal : string := "I can only help you with gold investment queries.".
Definition please_ask : string := "Please ask me a question about gold.".
Definition unable_long : string :=
  "Right now I'm unable to fetch live AI insights due to an API limit or server issue. The data coming is hard-coded and will resume the live response as soon as the API limit gets refreshed".
Definition unable_short : string :=
  "Right now I'm unable to fetch live AI insights due to an API limit or server issue.".
Definition tip : string :=
  "But here’s a helpful tip: Gold is a safe-haven asset. On Simplify Money, you can instantly buy or sell 24K, 99.9% pure digital gold.".
Definition suggestion : string :=
  "Simplify Money makes digital gold investment effortless: - Buy or sell 24K, 99.9% pure gold instantly. - Your gold is securely stored in insured vaults. - Start small with as little as ₹10.".
Definition nudge : string :=
  "Would you like me to help you invest in digital gold on Simplify Money now?".

(** [analyze_trend] on what [history] may hold.  Only a list gets as far as
    the prices: of a longer [str] the items have no ['price'], and a longer
    [dict] takes no slice as key. *)
Definition analyze_trend_value (history : value) (period : Z) : result float :=
  match history with
  | VList items => analyze_trend items period
  | _ =>
      if negb (truthy history) then Ok zero
      else n <- len history ;; if n <? 2 then Ok zero else Raise TypeError
  end.

(** The [if history:] block: the trend sentence, or the empty text. *)
Definition trend_insight_of (history : value) : result string :=
  if truthy history then
    short_pct <- analyze_trend_value history 7 ;;
    n <- len history ;;
    long_pct <- analyze_trend_value history (if 30 <=? n then 30 else n) ;;
    Ok ("If we look up on the trend insights then over the last 7 days, gold has changed by "
        ++ format_f short_pct 2 ++ "%. Over the last 30 days, it changed by "
        ++ format_f long_pct 2 ++ "%.")
  else Ok "".

Section WithDatetime.
Context {D : Datetime}.

(** The [try] that fetches [extra_data]; any exception leaves [{}]. *)
Definition fetch (w : world) (classification : string) : value :=
  let attempt :=
    if contains "current_price" classification then
      get_live_gold_price (prices w)
    else if contains "history" classification then
      get_gold_price_history (prices w) (history_30d w) 30
    else if contains "prediction" classification then
      current <- get_live_gold_price (prices w) ;;
      history <- get_gold_price_history (prices w) (history_90d w) 90 ;;
      Ok (VDict [("current", current); ("history", history)])
    else Ok (VDict []) in
  match attempt with
  | Ok extra_data => extra_data
  | Raise _ => VDict []
  end.

(** [extra_data.get("history") or get_backup_gold_data()] *)
Definition history_of (w : world) (extra_data : value) : result value :=
  let stored :=
    match extra_data with
    | VDict items => lookup "history" items
    | _ => None
    end in
  match stored with
  | Some v => if truthy v then Ok v else
                backup_data <- get_backup_gold_data (backup_file (prices w)) ;;
                Ok (VList backup_data)
  | None => backup_data <- get_backup_gold_data (backup_file (prices w)) ;;
            Ok (VList backup_data)
  end.

(** [f"{extra_insights} {trend_insight}".strip()] when a trend was computed. *)
Definition with_trend (separator extra_insights trend_insight : string) : string :=
  match trend_insight with
  | EmptyString => extra_insights
  | _ => strip (extra_insights ++ separator ++ trend_insight)
  end.

(** The body of the outer [try]. *)
Definition answer_question (w : world) (user_question : string) : result KuberResponse :=
  let is_gold_query :=
    match gemini_model w with
    | Some g =>
        match about_gold g with
        | Ok text => contains "yes" (lower (strip text))
        | Raise _ => _is_gold_by_keyword user_question
        end
    | None => _is_gold_by_keyword user_question
    end in
  trend_insight <-
    (if is_gold_query then
       let classification :=
         match gemini_model w with
         | Some g =>
             match intent g with
             | Ok text => lower (strip text)
             | Raise _ => _keyword_classify user_question
             end
         | None => _keyword_classify user_question
         end in
       history <- history_of w (fetch w classification) ;;
       trend_insight_of history
     else Ok "") ;;
  let ai_response :=
    match gemini_model w with
    | Some g =>
        if is_gold_query then
          match fusion g with
          | Ok text => Some (strip text)
          | Raise _ => None
          end
        else None
    | None => None
    end in
  let fallback :=
    if negb is_gold_query then (refusal, please_ask) else (unable_long, tip) in
  let (answer, extra_insights) :=
    match ai_response with
    | Some text =>
        if negb (String.eqb text "") then
          let (first, rest) := split_once (String "010" (String "010" "")) text in
          (_clean_text first,
           _clean_text match rest with Some r => r | None => "" end)
        else fallback
    | None => fallback
    end in
  Ok {| is_gold_query := is_gold_query;
        answer := answer;
        extra_insights := Some (with_trend " " extra_insights trend_insight);
        simplify_suggestion := Some suggestion;
        nudge_text := Some nudge |}.

(** The handler of the outer [except Exception]. *)
Definition safety_net (w : world) (user_question : string) : result KuberResponse :=
  history <- get_backup_gold_data (backup_file (prices w)) ;;
  trend_insight <- trend_insight_of (VList history) ;;
  Ok {| is_gold_query := _is_gold_by_keyword user_question;
        answer := unable_short;
        extra_insights := Some (with_trend "" tip trend_insight);
        simplify_suggestion := Some suggestion;
        nudge_text := Some nudge |}.

(** The handler of [POST /ask-kuber]. *)
Definition ask_kuber_ai (w : world) (user_question : string) : result KuberResponse :=
  match answer_question w user_question with
  | Ok response => Ok response
  | Raise _ => safety_net w user_question
  end.

End WithDatetime.

End Assistant.

(** ** Purchase recorder *)

Module Purchase.

(** [schemas.PurchaseRequest] *)
Record PurchaseRequest : Type := {
  user_name : string;
  user_email : string;
  amount_inr : float;
  quoted_price_inr_per_gram : float;
  nudge_to_invest : bool
}.

(** [f"Purchase of {grams_purchased}g gold successful."], kept as the value
    it interpolates. *)
Inductive text : Type :=
| Purchase_successful (grams : float).

(** [schemas.PurchaseResponse] *)
Record PurchaseResponse : Type := {
  success : bool;
  message : text;
  transaction_id : Z;
  grams_purchased : float
}.

(** [models.User] *)
Record User : Type := {
  User_id : Z;
  User_name : string;
  User_email : string
}.

(** [models.Transaction]; the timestamp is set by the database server. *)
Record Transaction : Type := {
  Transaction_id : Z;
  Transaction_user_id : Z;
  Transaction_amount_inr : float;
  Transaction_grams_purchased : float;
  Transaction_gold_price_per_gram : float
}.

(** The two tables behind the session [db]. *)
Record database : Type := {
  users : list User;
  transactions : list Transaction
}.

(** An auto-generated integer primary key: one more than the largest. *)
Definition next_id (ids : list Z) : Z := 1 + fold_right Z.max 0 ids.

(** [db.query(models.User).filter(models.User.email == email).first()] *)
Definition first_user_by_email (db : database) (email : string) : option User :=
  find (fun u => String.eqb (User_email u) email) (users db).

(** [db.add(user); db.commit(); db.refresh(user)] *)
Definition add_user (db : database) (name email : string) : User * database :=
  let user := {| User_id := next_id (map User_id (users db));
                 User_name := name; User_email := email |} in
  (user, {| users := (users db ++ [user])%list; transactions := transactions db |}).

(** A [Float] column declared [nullable=False] ([amount_inr],
    [grams_purchased], [gold_price_per_gram] of [models.Transaction]) takes
    every number and both infinities; NaN is kept as NULL, which the column
    refuses. *)
Definition not_null (f : float) : bool := negb (is_nan f).

(** [db.add(transaction); db.commit(); db.refresh(transaction)]: the commit
    raises [IntegrityError] when a column refuses its value, and the row is
    not stored. *)
Definition add_transaction (db : database) (user_id : Z) (amount grams price : float)
  : result (Transaction * database) :=
  let transaction :=
    {| Transaction_id := next_id (map Transaction_id (transactions db));
       Transaction_user_id := user_id;
       Transaction_amount_inr := amount;
       Transaction_grams_purchased := grams;
       Transaction_gold_price_per_gram := price |} in
  if (not_null amount && not_null grams && not_null price)%bool then
    Ok (transaction,
        {| users := users db; transactions := (transactions db ++ [transaction])%list |})
  else Raise IntegrityError.

(** [a / b] on floats. *)
Definition float_div (a b : float) : result float :=
  if (b =? 0)%float then Raise ZeroDivisionError else Ok (a / b)%float.

(** The handler of [POST /buy-gold]: its outcome and the database it leaves.
    The user row is committed before the transaction row: when the second
    commit raises, a user created by the first stays. *)
Definition buy_digital_gold (request : PurchaseRequest) (db : database)
  : result PurchaseResponse * database :=
  if negb (nudge_to_invest request) then
    (Raise (HTTPException 400 "Nudge flag is false. Purchase not allowed"), db)
  else
    let price_inr_per_gram := quoted_price_inr_per_gram request in
    if (amount_inr request <? 10)%float then
      (Raise (HTTPException 400 "Minimum purchase is ₹10"), db)
    else
      match float_div (amount_inr request) price_inr_per_gram with
      | Raise e => (Raise e, db)
      | Ok quotient =>
          let grams := round_float quotient 4 in
          let (user, db1) :=
            match first_user_by_email db (user_email request) with
            | Some user => (user, db)
            | None => add_user db (user_name request) (user_email request)
            end in
          match add_transaction db1 (User_id user) (amount_inr request) grams
                  (round_float price_inr_per_gram 2) with
          | Raise e => (Raise e, db1)
          | Ok (transaction, db2) =>
              (Ok {| success := true;
                     message := Purchase_successful grams;
                     transaction_id := Transaction_id transaction;
                     grams_purchased := grams |}, db2)
          end
      end.

End Purchase.

(** ** Calendar dates

    An instance of the interface: [YYYY-MM-DD], which every version of
    [datetime.fromisoformat] reads as the naive midnight of that day.  Naive
    values compare field by field. *)

Module Calendar.

Definition digit_value (c : ascii) : option Z :=
  if in_range 48 57 c then Some (Z.of_N (code c) - 48) else None.

Fixpoint number (acc : Z) (ds : list ascii) : option Z :=
  match ds with
  | [] => Some acc
  | c :: ds' =>
      match digit_value c with
      | Some d => number (10 * acc + d) ds'
      | None => None
      end
  end.

Definition is_leap (y : Z) : bool :=
  ((y mod 4 =? 0) && (negb (y mod 100 =? 0) || (y mod 400 =? 0)))%bool.

Definition days_in_month (y m : Z) : Z :=
  match m with
  | 2 => if is_leap y then 29 else 28
  | 4 | 6 | 9 | 11 => 30
  | _ => 31
  end.

Definition date : Type := Z * Z * Z.

Definition parse (s : string) : option date :=
  match list_ascii_of_string s with
  | [y1; y2; y3; y4; h1; m1; m2; h2; d1; d2] =>
      if (Ascii.eqb h1 "-" && Ascii.eqb h2 "-")%bool then
        match number 0 [y1; y2; y3; y4], number 0 [m1; m2], number 0 [d1; d2] with
        | Some y, Some m, Some d =>
            if ((1 <=? y) && (1 <=? m) && (m <=? 12) &&
                (1 <=? d) && (d <=? days_in_month y m))%bool
            then Some (y, m, d)
            else None
        | _, _, _ => None
        end
      else None
  | _ => None
  end.

Definition before (a b : date) : bool :=
  let '(ya, ma, da) := a in
  let '(yb, mb, db) := b in
  ((ya <? yb) || ((ya =? yb) && ((ma <? mb) || ((ma =? mb) && (da <? db)))))%bool.

Definition dates : Datetime :=
  {| datetime := date;
     fromisoformat := parse;
     dt_lt := fun a b => Some (before a b) |}.

End Calendar.

(* ================================================================== *)
(** * Part II: the vocabulary of the properties *)
(* ================================================================== *)

Module Spec.
Import Classifier Trend Backup LivePrice Purchase.

(** [k] occurs in [q]. *)
Definition occurs (k q : string) : Prop :=
  exists pre post, q = pre ++ k ++ post.

(** Some term of the list occurs in the question. *)
Definition mentions (terms : list string) (q : string) : Prop :=
  exists k, In k terms /\ occurs k q.

Fixpoint last_char (s : string) : option ascii :=
  match s with
  | EmptyString => None
  | String c EmptyString => Some c
  | String _ s' => last_char s'
  end.

(** The character before the position that follows [m], [before] being the
    one that precedes [m]. *)
Definition last_or (before : option ascii) (m : string) : option ascii :=
  match last_char m with
  | Some c => Some c
  | None => before
  end.

(** [w] stands in [q] as a whole word, in any case: the text on its left
    does not end, and the text on its right does not start, with a word
    character. *)
Definition whole_word (w q : string) : Prop :=
  exists pre m post,
    q = pre ++ m ++ post /\ lower m = w /\
    is_word (last_char pre) = false /\ is_word (head post) = false.

Definition all_chars : list ascii := map ascii_of_nat (seq 0 256).

(** A literal that starts and ends with a word character, in lower case. *)
Definition wordlike (lit : string) : Prop :=
  lower lit = lit /\ is_word (head lit) = true /\ is_word (last_char lit) = true.

(** The trailing [period] points, or all points if the series is shorter. *)
Definition trailing_points (series : list value) (period : Z) : list value :=
  if Z.of_nat (List.length series) <? period then series
  else rev (firstn (Z.to_nat period) (rev series)).

(** An entry that carries a positive price. *)
Definition positive_price (entry : value) : Prop :=
  exists p, getitem entry "price" = Ok (VNum p) /\ (0 <? p)%float = true.

(** A price point as the trend analyzer reads it. *)
Definition point (p : float) : value := VDict [("price", VNum p)].



(** [n] is the integer nearest to [m * 2^e * 10^nd], the even one of two
    that are equally near. *)
Definition nearest_decimal (m : positive) (e : Z) (nd : nat) (n : Z) : Prop :=
  if 0 <=? e then n = Z.pos m * 2 ^ e * 10 ^ Z.of_nat nd
  else
    2 * Z.abs (n * 2 ^ (- e) - Z.pos m * 10 ^ Z.of_nat nd) <= 2 ^ (- e) /\
    (2 * Z.abs (n * 2 ^ (- e) - Z.pos m * 10 ^ Z.of_nat nd) = 2 ^ (- e) ->
     Z.even n = true).

(** The binary64 that IEEE 754 division gives for [n / 10^nd], [0 < n], with
    the sign [s]: the one nearest to the quotient. *)
Definition quotient_of_ten (s : bool) (n : Z) (nd : nat) : float :=
  SF2Prim (SFdiv prec emax (S754_finite s (Z.to_pos n) 0)
             (S754_finite false (Z.to_pos (10 ^ Z.of_nat nd)) 0)).

(** [r] is [x] rounded to [nd] decimal places: the magnitude of [x] times
    [10^nd] is taken to the nearest integer [n], and [r] is the binary64
    nearest to [n / 10^nd], with the sign of [x]; what is not a finite number
    other than zero is left as it is. *)
Definition rounded_to (nd : nat) (x r : float) : Prop :=
  match Prim2SF x with
  | S754_finite s m e =>
      exists n, 0 <= n /\ nearest_decimal m e nd n /\
        r = (if n =? 0 then (if s then neg_zero else zero)
             else quotient_of_ten s n nd)
  | _ => r = x
  end.


Section Orders.
Context {A K : Type}.
Variable lt : K -> K -> result bool.

(** [x] is not after [y]: [y < x] is false. *)
Definition not_after (x y : K * A) : Prop := lt (fst y) (fst x) = Ok false.


End Orders.

(** The pair of an item and its key. *)
Definition keyed_by {A K : Type} (key : A -> result K) (kx : K * A) : Prop :=
  key (snd kx) = Ok (fst kx).

(** The laws of the order of dates: [<] is asymmetric, and "not after" is
    transitive. *)
Record lawful_order (D : Datetime) : Prop := {
  lt_asym : forall a b : datetime, dt_lt a b = Some true -> dt_lt b a = Some false;
  le_trans : forall a b c : datetime,
    dt_lt b a = Some false -> dt_lt c b = Some false -> dt_lt c a = Some false
}.

Section Dates.
Context {D : Datetime}.
Import Backup.

(** Entry [a] is dated no later than entry [b]. *)
Definition date_le (a b : value) : Prop :=
  exists ta tb, date_key a = Ok ta /\ date_key b = Ok tb /\ dt_lt tb ta = Some false.

(** An entry with a date that parses. *)
Definition dated (x : value) : Prop := exists t, date_key x = Ok t.


End Dates.

(** A dated price point of the snapshot. *)
Definition dated_entry (date : string) (p : float) : value :=
  VDict [("date", VStr date); ("price", VNum p)].

(** A snapshot stored out of order. *)
Definition shuffled : Backup.snapshot :=
  Json (VList [dated_entry "2024-03-01" 6200; dated_entry "2024-01-15" 6000;
               dated_entry "2024-02-10" 6100]).

(** Neither credential nor network. *)
Definition offline (file : Backup.snapshot) : environment :=
  {| GOLD_API_KEY := None; spot_response := Raise RequestException; backup_file := file |}.

(** An empty database and a request of a new customer. *)
Definition empty : database := {| users := []; transactions := [] |}.

Definition order (amount price : float) (nudge : bool) : PurchaseRequest :=
  {| user_name := "Asha"; user_email := "asha@example.com";
     amount_inr := amount; quoted_price_inr_per_gram := price;
     nudge_to_invest := nudge |}.

End Spec.

Import Spec.

(** ** The vocabulary of the further properties *)

Module More.
Import Classifier Trend Backup LivePrice PriceHistory Purchase Assistant.

(** An entry that carries a number as its price. *)
Definition priced (entry : value) : Prop :=
  exists p, getitem entry "price" = Ok (VNum p).

(** An entry that is an object. *)
Definition is_object (entry : value) : Prop := exists items, entry = VDict items.

(** A request that passes the two checks and quotes a price other than 0,
    the amount, the price and their quotient being numbers (not NaN). *)
Definition accepted (request : PurchaseRequest) : Prop :=
  nudge_to_invest request = true /\
  (amount_inr request <? 10)%float = false /\
  (quoted_price_inr_per_gram request =? 0)%float = false /\
  is_nan (amount_inr request) = false /\
  is_nan (quoted_price_inr_per_gram request) = false /\
  is_nan (amount_inr request / quoted_price_inr_per_gram request) = false.

(** The row that a purchase adds to the transactions. *)
Definition new_transaction (db : database) (user_id : Z) (amount grams price : float)
  : Transaction :=
  {| Transaction_id := next_id (map Transaction_id (transactions db));
     Transaction_user_id := user_id;
     Transaction_amount_inr := amount;
     Transaction_grams_purchased := grams;
     Transaction_gold_price_per_gram := price |}.

(** The user the purchase is booked on, and the tables once that user is
    there. *)
Definition booked (request : PurchaseRequest) (db : database) : User * database :=
  match first_user_by_email db (user_email request) with
  | Some user => (user, db)
  | None => add_user db (user_name request) (user_email request)
  end.

(** The keys of the two tables are unique, no two users share an email, and
    every transaction belongs to a user of the table. *)
Definition consistent (db : database) : Prop :=
  NoDup (map User_email (users db)) /\
  NoDup (map User_id (users db)) /\
  NoDup (map Transaction_id (transactions db)) /\
  Forall (fun t => In (Transaction_user_id t) (map User_id (users db)))
    (transactions db).

(** A text without whitespace. *)
Fixpoint unspaced (w : string) : bool :=
  match w with
  | EmptyString => true
  | String c w' => (negb (is_space c) && unspaced w')%bool
  end.

(** A word: not empty, and without whitespace. *)
Definition word (w : string) : Prop := w <> "" /\ unspaced w = true.

(** The text with its whitespace taken out. *)
Fixpoint squeeze (s : string) : string :=
  match s with
  | EmptyString => EmptyString
  | String c s' => if is_space c then squeeze s' else String c (squeeze s')
  end.

(** A response of the spot endpoint that quotes a price: an object whose
    [price_gram_24k] is a number. *)
Definition quotes_price (data : value) : Prop :=
  exists items v p,
    data = VDict items /\ lookup "price_gram_24k" items = Some v /\
    as_number v = Some p.

(** An entry of the history endpoint with a date and a number as price. *)
Definition quoted (entry : value) : Prop :=
  exists d p, getitem entry "date" = Ok d /\ getitem entry "price" = Ok (VNum p).

(** What the live history keeps of an entry. *)
Definition kept (entry out : value) : Prop :=
  exists d p,
    getitem entry "date" = Ok d /\ getitem entry "price" = Ok (VNum p) /\
    out = VDict [("date", d); ("price", VNum (round_float p 2))].

(** A credential and an answer of the network. *)
Definition online (response : result value) (file : Backup.snapshot) : environment :=
  {| GOLD_API_KEY := Some "key"; spot_response := response; backup_file := file |}.

(** The question is judged not to be about gold: by the keyword test when
    no model is configured or its call fails, by the model when it answers
    without a "yes". *)
Definition judged_other (w : world) (question : string) : Prop :=
  (gemini_model w = None /\ _is_gold_by_keyword question = false) \/
  (exists g e, gemini_model w = Some g /\ about_gold g = Raise e /\
               _is_gold_by_keyword question = false) \/
  (exists g text, gemini_model w = Some g /\ about_gold g = Ok text /\
                  contains "yes" (lower (strip text)) = false).

(** No model, and the price helpers of [env]. *)
Definition unassisted (env : environment) (h30 h90 : result value) : world :=
  {| prices := env; history_30d := h30; history_90d := h90; gemini_model := None |}.

(** A database with one customer. *)
Definition one_customer : database :=
  {| users := [{| User_id := 7; User_name := "Asha K"; User_email := "asha@example.com" |}];
     transactions := [] |}.

(** The pattern without its middle branch. *)
Definition short_words : list string := ["gold"; "xau"].

End More.

Import More.

(* ================================================================== *)
(** * Part III: properties *)
(* ================================================================== *)

(** ** Strings and the query classifier *)

Module StringFacts.
Lemma prefix_iff (k q : string) :
  String.prefix k q = true <-> exists post, q = k ++ post.
Proof.
  revert q; induction k as [|c k IH]; intros q.
  - split; [intros _; now exists q | intros _; now destruct q].
  - destruct q as [|d q].
    + split; [discriminate | intros [post E]; discriminate].
    + change (String.prefix (String c k) (String d q))
        with (if Ascii.ascii_dec c d then String.prefix k q else false).
      destruct (Ascii.ascii_dec c d) as [->|Hne].
      * rewrite IH. split; intros [post E]; exists post; simpl in *; congruence.
      * split; [discriminate | intros [post E]; simpl in E; congruence].
Qed.

Lemma contains_iff (k q : string) : contains k q = true <-> occurs k q.
Proof.
  unfold occurs. induction q as [|d q IH].
  - cbn [contains]. rewrite orb_false_r, prefix_iff. split.
    + intros [post E]. now exists "", post.
    + intros [[|c pre] [post E]]; [now exists post | discriminate].
  - cbn [contains]. rewrite orb_true_iff, prefix_iff, IH. split.
    + intros [[post E] | [pre [post E]]].
      * now exists "", post.
      * exists (String d pre), post. simpl. now rewrite E.
    + intros [[|c pre] [post E]].
      * left. now exists post.
      * right. exists pre, post. simpl in E. congruence.
Qed.

End StringFacts.

Module ClassifierFacts.
Import Classifier StringFacts.

Lemma any_in_iff (terms : list string) (q : string) :
  any_in terms q = true <-> mentions terms q.
Proof.
  unfold any_in, mentions. rewrite existsb_exists.
  split; intros [k [Hin Hk]]; exists k; split; auto; now apply contains_iff.
Qed.

Lemma any_in_false (terms : list string) (q : string) :
  any_in terms q = false <-> ~ mentions terms q.
Proof.
  rewrite <- any_in_iff. now destruct (any_in terms q).
Qed.

(** C5 (as amended): the keyword classifier takes the first of the three
    groups, price before history before prediction, of which a term occurs in
    the lower-cased question, and [general_info] when none does; on the four
    questions of the specification it answers [current_price], [history],
    [current_price] (the question mentions a price) and [general_info]. *)
Theorem keyword_classify_precedence :
  (forall question : string,
     (mentions price_terms (lower question) ->
      _keyword_classify question = "current_price") /\
     (~ mentions price_terms (lower question) ->
      mentions history_terms (lower question) ->
      _keyword_classify question = "history") /\
     (~ mentions price_terms (lower question) ->
      ~ mentions history_terms (lower question) ->
      mentions prediction_terms (lower question) ->
      _keyword_classify question = "prediction") /\
     (~ mentions price_terms (lower question) ->
      ~ mentions history_terms (lower question) ->
      ~ mentions prediction_terms (lower question) ->
      _keyword_classify question = "general_info")) /\
  _keyword_classify "What's the current price of gold?" = "current_price" /\
  _keyword_classify "Show me gold history" = "history" /\
  _keyword_classify "Will gold price rise?" = "current_price" /\
  _keyword_classify "Will gold rise?" = "prediction" /\
  _keyword_classify "Tell me about gold" = "general_info".
Proof.
  split; [| repeat split; reflexivity].
  intros question. unfold _keyword_classify.
  repeat split.
  - intros Hp. apply any_in_iff in Hp. now rewrite Hp.
  - intros Hp Hh. apply any_in_false in Hp. apply any_in_iff in Hh.
    now rewrite Hp, Hh.
  - intros Hp Hh Hf. apply any_in_false in Hp, Hh. apply any_in_iff in Hf.
    now rewrite Hp, Hh, Hf.
  - intros Hp Hh Hf. apply any_in_false in Hp, Hh, Hf.
    now rewrite Hp, Hh, Hf.
Qed.

Lemma keyword_classify_precedence_witness :
  mentions history_terms (lower "Show me gold history") /\
  _keyword_classify "Show me gold history" = "history".
Proof.
  assert (Hh : mentions history_terms (lower "Show me gold history"))
    by (apply any_in_iff; reflexivity).
  split; [exact Hh |].
  apply (proj1 (proj2 (proj1 keyword_classify_precedence "Show me gold history"))).
  - apply any_in_false. reflexivity.
  - exact Hh.
Defined.

(** C5, the claim as stated fails: the question that the specification
    files under [prediction] mentions a price, and price terms come first. *)
Lemma keyword_classify_will_price :
  mentions price_terms (lower "Will gold price rise?") /\
  mentions prediction_terms (lower "Will gold price rise?") /\
  _keyword_classify "Will gold price rise?" = "current_price" /\
  _keyword_classify "Will gold price rise?" <> "prediction".
Proof.
  repeat split; try (apply any_in_iff; reflexivity); try reflexivity.
  discriminate.
Qed.

End ClassifierFacts.

Module WordFacts.
Import Classifier.

Lemma in_all_chars (c : ascii) : In c all_chars.
Proof.
  unfold all_chars. rewrite <- (ascii_nat_embedding c).
  apply in_map, in_seq. pose proof (nat_ascii_bounded c). lia.
Qed.

Lemma is_word_lower_char (c : ascii) : is_word_char (lower_char c) = is_word_char c.
Proof.
  assert (H : forallb (fun c => Bool.eqb (is_word_char (lower_char c)) (is_word_char c))
                all_chars = true) by (vm_compute; reflexivity).
  rewrite forallb_forall in H. apply eqb_prop, H, in_all_chars.
Qed.

Lemma lower_char_idem (c : ascii) : lower_char (lower_char c) = lower_char c.
Proof.
  assert (H : forallb (fun c => Ascii.eqb (lower_char (lower_char c)) (lower_char c))
                all_chars = true) by (vm_compute; reflexivity).
  rewrite forallb_forall in H. apply Ascii.eqb_eq, H, in_all_chars.
Qed.

Lemma last_or_cons (b : option ascii) (c : ascii) (m : string) :
  last_or b (String c m) = last_or (Some c) m.
Proof.
  unfold last_or. destruct m as [|d m]; [reflexivity|].
  change (last_char (String c (String d m))) with (last_char (String d m)).
  assert (H : exists x, last_char (String d m) = Some x).
  { clear c. revert d. induction m as [|e m IH]; intros d.
    - now exists d.
    - destruct (IH e) as [x Hx]. exists x. exact Hx. }
  destruct H as [x ->]. reflexivity.
Qed.

Lemma is_word_head_lower (m : string) : is_word (head (lower m)) = is_word (head m).
Proof. destruct m; simpl; [reflexivity | apply is_word_lower_char]. Qed.

Lemma is_word_last_lower (m : string) :
  is_word (last_char (lower m)) = is_word (last_char m).
Proof.
  induction m as [|c m IH]; [reflexivity|].
  destruct m as [|d m]; [simpl; apply is_word_lower_char | exact IH].
Qed.

Lemma match_literal_iff (lit s : string) (b l : option ascii) (rest : string) :
  match_literal lit s b = Some (l, rest) <->
  exists m, s = m ++ rest /\ lower m = lower lit /\ l = last_or b m.
Proof.
  revert s b; induction lit as [|p lit IH]; intros s b; simpl.
  - split.
    + intros E. injection E as <- <-. now exists "".
    + intros [[|c m] [-> [E ->]]]; [reflexivity | discriminate].
  - destruct s as [|c s].
    + split; [discriminate | intros [[|c m] [E1 [E2 _]]]; discriminate].
    + destruct (Ascii.eqb_spec (lower_char c) (lower_char p)) as [Ec|Ec].
      * rewrite IH. split.
        -- intros [m [-> [E ->]]]. exists (String c m). simpl.
           rewrite Ec, E, last_or_cons. auto.
        -- intros [[|c' m] [E1 [E2 ->]]]; [discriminate|].
           simpl in E1, E2. injection E1 as <- ->. injection E2 as _ E2.
           exists m. rewrite last_or_cons. auto.
      * split; [discriminate |].
        intros [[|c' m] [E1 [E2 _]]]; [discriminate|].
        simpl in E1, E2. injection E1 as <- _. injection E2 as E2 _. contradiction.
Qed.

Lemma search_words_iff (lits : list string) (b : option ascii) (s : string) :
  search_words lits b s = true <->
  exists pre rest lit,
    s = pre ++ rest /\ In lit lits /\ match_word lit (last_or b pre) rest = true.
Proof.
  revert b; induction s as [|c s IH]; intros b; cbn [search_words];
    rewrite orb_true_iff, existsb_exists.
  - split.
    + intros [[lit [Hin Hm]] | Hf]; [| discriminate].
      exists "", "", lit. auto.
    + intros [pre [rest [lit [E [Hin Hm]]]]]. left. exists lit. split; [exact Hin|].
      destruct pre; [| discriminate]. simpl in E. subst rest. exact Hm.
  - rewrite IH. split.
    + intros [[lit [Hin Hm]] | [pre [rest [lit [E [Hin Hm]]]]]].
      * exists "", (String c s), lit. auto.
      * exists (String c pre), rest, lit. simpl. rewrite E, last_or_cons. auto.
    + intros [[|c' pre] [rest [lit [E [Hin Hm]]]]].
      * left. exists lit. simpl in E. subst rest. auto.
      * right. simpl in E. injection E as <- ->. rewrite last_or_cons in Hm.
        exists pre, rest, lit. auto.
Qed.

Lemma match_word_iff (lit : string) (b : option ascii) (s : string) :
  wordlike lit ->
  match_word lit b s = true <->
  exists m post, s = m ++ post /\ lower m = lit /\
                 is_word b = false /\ is_word (head post) = false.
Proof.
  intros [Hlow [Hhd Hlast]]. unfold match_word. rewrite andb_true_iff. split.
  - intros [Hb Hm].
    destruct (match_literal lit s b) as [[l rest]|] eqn:E; [| discriminate].
    apply match_literal_iff in E. destruct E as [m [-> [Em ->]]].
    rewrite Hlow in Em. exists m, rest.
    assert (Hhm : is_word (head m) = true)
      by (rewrite <- is_word_head_lower, Em; exact Hhd).
    assert (Hlm : is_word (last_char m) = true)
      by (rewrite <- is_word_last_lower, Em; exact Hlast).
    repeat split; auto.
    + destruct m as [|c m]; [discriminate|]. simpl in Hb, Hhm.
      unfold word_boundary in Hb. simpl in Hb. rewrite Hhm in Hb.
      now destruct (is_word b).
    + unfold last_or, word_boundary in Hm.
      destruct (last_char m) as [c|]; [| discriminate].
      rewrite Hlm in Hm. now destruct (is_word (head rest)).
  - intros [m [post [-> [Em [Hb Hp]]]]].
    assert (Hhm : is_word (head m) = true)
      by (rewrite <- is_word_head_lower, Em; exact Hhd).
    assert (Hlm : is_word (last_char m) = true)
      by (rewrite <- is_word_last_lower, Em; exact Hlast).
    assert (E : match_literal lit (m ++ post) b = Some (last_or b m, post)).
    { apply match_literal_iff. exists m. rewrite Hlow. auto. }
    rewrite E. unfold word_boundary, last_or.
    assert (Hh : is_word (head (m ++ post)) = true)
      by (destruct m; [discriminate | exact Hhm]).
    rewrite Hb, Hp, Hh.
    destruct (last_char m); [| discriminate].
    now rewrite Hlm.
Qed.

Lemma gold_words_wordlike (lit : string) : In lit gold_words -> wordlike lit.
Proof.
  intros [<- | [<- | [<- | []]]]; repeat split.
Qed.

Lemma append_assoc (a b c : string) : (a ++ b) ++ c = a ++ b ++ c.
Proof. induction a; simpl; congruence. Qed.

(** C6: the keyword test answers yes exactly when [gold], [digital gold] or
    [xau] stands in the question as a whole word, in any case; it does for
    "What is the GOLD rate today?" and does not for "How is silver doing?". *)
Theorem is_gold_whole_word :
  (forall question : string,
     _is_gold_by_keyword question = true <->
     exists w, In w gold_words /\ whole_word w question) /\
  _is_gold_by_keyword "What is the GOLD rate today?" = true /\
  _is_gold_by_keyword "How is silver doing?" = false.
Proof.
  split; [| split; reflexivity].
  intros question. unfold _is_gold_by_keyword, whole_word.
  rewrite search_words_iff. split.
  - intros [pre [rest [lit [-> [Hin Hm]]]]].
    apply match_word_iff in Hm; [| now apply gold_words_wordlike].
    destruct Hm as [m [post [-> [Em [Hb Hp]]]]].
    exists lit. split; [exact Hin|]. exists pre, m, post.
    unfold last_or in Hb. destruct (last_char pre); auto.
  - intros [w [Hin [pre [m [post [-> [Em [Hb Hp]]]]]]]].
    exists pre, (m ++ post), w. repeat split; auto.
    apply match_word_iff; [now apply gold_words_wordlike|].
    exists m, post. repeat split; auto.
    unfold last_or. now destruct (last_char pre).
Qed.

End WordFacts.

(** ** Floats *)

Module FloatFacts.
Lemma SFcompare_antisym (x y : spec_float) :
  SFcompare y x = option_map CompOpp (SFcompare x y).
Proof.
  destruct x as [sx|sx| |sx mx ex], y as [sy|sy| |sy my ey]; simpl;
    try reflexivity;
    try (destruct sx; reflexivity);
    try (destruct sy; reflexivity);
    try (destruct sx, sy; reflexivity).
  destruct sx, sy; try reflexivity;
    rewrite (Z.compare_antisym ex ey);
    destruct (ex ?= ey); simpl; try reflexivity;
    change (Pcompare ?a ?b Eq) with (Pos.compare a b);
    rewrite (Pos.compare_antisym mx my); try reflexivity.
Qed.

(** [y <= x] rules out [x < y]. *)
Lemma leb_not_ltb (x y : float) : (y <=? x)%float = true -> (x <? y)%float = false.
Proof.
  rewrite leb_spec, ltb_spec. unfold SFleb, SFltb.
  rewrite (SFcompare_antisym (Prim2SF x) (Prim2SF y)).
  now destruct (SFcompare (Prim2SF x) (Prim2SF y)) as [[]|].
Qed.

(** [x < y] rules out [y < x]. *)
Lemma ltb_asym (x y : float) : (x <? y)%float = true -> (y <? x)%float = false.
Proof.
  rewrite !ltb_spec. unfold SFltb.
  rewrite (SFcompare_antisym (Prim2SF x) (Prim2SF y)).
  now destruct (SFcompare (Prim2SF x) (Prim2SF y)) as [[]|].
Qed.

(** [x < y] rules out [y == x]. *)
Lemma ltb_not_eqb (x y : float) : (x <? y)%float = true -> (y =? x)%float = false.
Proof.
  rewrite ltb_spec, eqb_spec. unfold SFltb, SFeqb.
  rewrite (SFcompare_antisym (Prim2SF x) (Prim2SF y)).
  now destruct (SFcompare (Prim2SF x) (Prim2SF y)) as [[]|].
Qed.

(** *** Rounding to binary64 never makes a NaN *)

Lemma shr_1_nonneg (mrs : shr_record) : 0 <= shr_m mrs -> 0 <= shr_m (shr_1 mrs).
Proof. destruct mrs as [m r s]. destruct m as [|p|p]; [| destruct p | ]; simpl; lia. Qed.

Lemma iter_shr_1_nonneg (p : positive) (mrs : shr_record) :
  0 <= shr_m mrs -> 0 <= shr_m (iter_pos shr_1 p mrs).
Proof.
  revert mrs. induction p as [p IH|p IH|]; intros mrs H; simpl.
  - apply IH, IH, shr_1_nonneg, H.
  - apply IH, IH, H.
  - apply shr_1_nonneg, H.
Qed.

Lemma shr_fexp_nonneg (m e : Z) (l : location) :
  0 <= m -> 0 <= shr_m (fst (shr_fexp prec emax m e l)).
Proof.
  intros H. unfold shr_fexp, shr.
  assert (H0 : 0 <= shr_m (shr_record_of_loc m l)) by (destruct l as [|[]]; exact H).
  destruct (fexp prec emax (Zdigits2 m + e) - e); simpl; auto.
  now apply iter_shr_1_nonneg.
Qed.

Lemma binary_round_aux_not_nan (sx : bool) (mx ex : Z) (lx : location) :
  0 <= mx -> binary_round_aux prec emax sx mx ex lx <> S754_nan.
Proof.
  intros H. unfold binary_round_aux.
  pose proof (shr_fexp_nonneg mx ex lx H) as H1.
  destruct (shr_fexp prec emax mx ex lx) as [mrs' e']. simpl in H1.
  assert (H2 : 0 <= round_nearest_even (shr_m mrs') (loc_of_shr_record mrs')).
  { unfold round_nearest_even. destruct (loc_of_shr_record mrs') as [|[]];
      try destruct (Z.even _); lia. }
  pose proof (shr_fexp_nonneg _ e' loc_Exact H2) as H3.
  destruct (shr_fexp prec emax _ e' loc_Exact) as [mrs'' e'']. simpl in H3.
  destruct (shr_m mrs'') as [|m|m]; [discriminate | | lia].
  destruct (e'' <=? emax - prec); discriminate.
Qed.

Lemma binary_round_not_nan (sx : bool) (mx : positive) (ex : Z) :
  binary_round prec emax sx mx ex <> S754_nan.
Proof.
  unfold binary_round. destruct (shl_align _ _ _) as [mz ez].
  apply binary_round_aux_not_nan. lia.
Qed.

Lemma SFdiv_finite_not_nan (sx sy : bool) (mx my : positive) (ex ey : Z) :
  SFdiv prec emax (S754_finite sx mx ex) (S754_finite sy my ey) <> S754_nan.
Proof.
  unfold SFdiv, SFdiv_core_binary.
  set (s := ex - ey - _).
  set (m' := match s with Z.pos _ => Z.shiftl (Z.pos mx) s | 0 => Z.pos mx | Z.neg _ => 0 end).
  assert (Hm : 0 <= m').
  { unfold m'. destruct s; try lia. apply Z.shiftl_nonneg. lia. }
  pose proof (Z.div_pos m' (Z.pos my) Hm ltac:(lia)) as Hq.
  unfold Z.div in Hq. destruct (Z.div_eucl m' (Z.pos my)) as [q r]. simpl in Hq.
  now apply binary_round_aux_not_nan.
Qed.

Lemma is_nan_Prim2SF (f : float) : is_nan f = false <-> Prim2SF f <> S754_nan.
Proof.
  unfold Prim2SF. destruct (is_nan f); split; try congruence.
  intros _. destruct (is_zero f); [discriminate |].
  destruct (is_infinity f); [discriminate |].
  destruct (Z.frexp f) as [r exp].
  destruct (shr_fexp _ _ _ _ _) as [shr e']. destruct (shr_m shr); discriminate.
Qed.

Lemma SF2Prim_not_nan (y : spec_float) : y <> S754_nan -> is_nan (SF2Prim y) = false.
Proof.
  intros Hy. destruct y as [[|]|[|]| |s m e]; try reflexivity; [contradiction |].
  unfold SF2Prim.
  assert (H : Prim2SF (Z.ldexp (of_uint63 (Uint63.of_Z (Z.pos m))) e) <> S754_nan).
  { rewrite Z_ldexp_spec, of_uint63_spec. unfold binary_normalize.
    destruct (Uint63.to_Z _) as [|p|p]; simpl; try discriminate;
      destruct (binary_round prec emax _ p 0) eqn:E; try discriminate;
      try (now apply binary_round_not_nan in E);
      apply binary_round_not_nan. }
  destruct s; apply is_nan_Prim2SF; [| exact H].
  rewrite opp_spec. destruct (Prim2SF _); try discriminate. contradiction.
Qed.

End FloatFacts.

(** ** Trend analyzer *)

Module TrendFacts.
Import Trend FloatFacts.

Lemma trailing_is_trailing_points (series : list value) (period : Z) :
  1 <= period -> trailing series period = trailing_points series period.
Proof.
  intros Hp. unfold trailing, trailing_points.
  replace (0 <? period) with true by (symmetry; apply Z.ltb_lt; lia).
  destruct (Z.ltb_spec (Z.of_nat (List.length series)) period) as [Hlt|Hge].
  - replace (Z.max (Z.of_nat (List.length series) - period) 0) with 0 by lia.
    reflexivity.
  - rewrite firstn_rev, rev_involutive. f_equal. lia.
Qed.

Lemma trailing_points_nonempty (series : list value) (period : Z) :
  series <> [] -> 1 <= period -> trailing_points series period <> [].
Proof.
  intros Hne Hp. unfold trailing_points.
  destruct (Z.ltb_spec (Z.of_nat (List.length series)) period) as [Hlt|Hge];
    [exact Hne|].
  rewrite firstn_rev, rev_involutive. intros E.
  apply (f_equal (@List.length value)) in E. rewrite length_skipn in E.
  assert (0 < List.length series)%nat
    by (destruct series; [contradiction | simpl; lia]).
  simpl in E. lia.
Qed.

Lemma trailing_points_incl (series : list value) (period : Z) :
  incl (trailing_points series period) series.
Proof.
  unfold trailing_points.
  destruct (Z.of_nat (List.length series) <? period); [apply incl_refl|].
  rewrite firstn_rev, rev_involutive. intros x Hx.
  rewrite <- (firstn_skipn (List.length series - Z.to_nat period) series).
  apply in_or_app. now right.
Qed.

Lemma last_cons {A : Type} (x d : A) (l : list A) :
  last (x :: l) d = last l x.
Proof.
  revert x d; induction l as [|a l IH]; intros x d; [reflexivity|].
  change (last (x :: a :: l) d) with (last (a :: l) d).
  now rewrite !IH.
Qed.

Lemma final_item_last {A : Type} (x : A) (l : list A) :
  final_item (x :: l) = Ok (last l x).
Proof.
  unfold final_item.
  destruct (exists_last (l := x :: l)) as [l' [a E]]; [discriminate|].
  rewrite <- (last_cons x x l), E, rev_app_distr, last_last. reflexivity.
Qed.

(** The prices of a window of priced entries, first and last. *)
Lemma prices_of_window (start : value) (rest : list value) :
  Forall positive_price (start :: rest) ->
  exists s e ps,
    getitem start "price" = Ok (VNum s) /\ (0 <? s)%float = true /\
    getitem (last rest start) "price" = Ok (VNum e) /\
    mapM (fun entry => getitem entry "price") (start :: rest) = Ok (VNum s :: ps) /\
    last ps (VNum s) = VNum e.
Proof.
  revert start; induction rest as [|x rest IH]; intros start Hall.
  - inversion Hall as [|? ? [s [Hs Hpos]] _]; subst.
    exists s, s, []. simpl. rewrite Hs. auto.
  - inversion Hall as [|? ? [s [Hs Hpos]] Hrest]; subst.
    destruct (IH x Hrest) as [s' [e [ps [Hx [_ [He [Hm Hl]]]]]]].
    exists s, e, (VNum s' :: ps).
    change (mapM (fun entry => getitem entry "price") (start :: x :: rest))
      with (y <- getitem start "price" ;;
            ys <- mapM (fun entry => getitem entry "price") (x :: rest) ;;
            Ok (y :: ys)).
    rewrite Hs, Hm. repeat split; auto.
    + now rewrite last_cons.
    + now rewrite last_cons.
Qed.

Lemma percent_change_positive (s e : float) :
  (0 <? s)%float = true ->
  percent_change (VNum s) (VNum e) = Ok ((e - s) / s * 100)%float.
Proof.
  intros Hpos. unfold percent_change, sub, truediv. simpl.
  now rewrite (ltb_not_eqb _ _ Hpos).
Qed.

(** The two-point change over the window the code slices. *)
Lemma analyze_trend_window (series : list value) (period : Z)
      (start : value) (rest : list value) :
  (2 <= List.length series)%nat ->
  trailing series period = start :: rest ->
  Forall positive_price (start :: rest) ->
  exists s e,
    getitem start "price" = Ok (VNum s) /\
    getitem (last rest start) "price" = Ok (VNum e) /\
    analyze_trend series period = Ok ((e - s) / s * 100)%float.
Proof.
  intros Hlen Hw Hall.
  destruct (prices_of_window start rest Hall) as [s [e [ps [Hs [Hpos [He [Hm Hl]]]]]]].
  exists s, e. repeat split; auto.
  unfold analyze_trend.
  destruct series as [|a [|b series]]; simpl in Hlen; try lia.
  replace (Z.of_nat (List.length (a :: b :: series)) <? 2) with false
    by (symmetry; apply Z.ltb_ge; simpl List.length; lia).
  cbn [truthy_list negb orb]. rewrite Hw, Hm.
  cbn [bind first_item]. rewrite final_item_last, Hl. cbn [bind].
  now apply percent_change_positive.
Qed.

(** C2: a series of at most one point has trend 0.0; a series of two or more
    positively priced points has the two-point change between the first and
    the last of its trailing [period] points (all of them when it is
    shorter); 100 to 110 is 10.0 and 100 to 90 is -10.0. *)
Theorem analyze_trend_two_point :
  (forall series period,
     (List.length series <= 1)%nat -> analyze_trend series period = Ok 0%float) /\
  (forall series period,
     (2 <= List.length series)%nat -> 1 <= period ->
     Forall positive_price series ->
     exists start rest s e,
       trailing_points series period = start :: rest /\
       getitem start "price" = Ok (VNum s) /\
       getitem (last rest start) "price" = Ok (VNum e) /\
       analyze_trend series period = Ok ((e - s) / s * 100)%float) /\
  analyze_trend [point 100; point 110] 7 = Ok 10%float /\
  analyze_trend [point 100; point 90] 7 = Ok (-10)%float.
Proof.
  split; [| split; [| split; reflexivity]].
  - intros [|a [|b series]] period Hlen; simpl in Hlen; try lia; reflexivity.
  - intros series period Hlen Hp Hall.
    assert (Hne : series <> []) by (destruct series; [simpl in Hlen; lia | discriminate]).
    pose proof (trailing_points_nonempty series period Hne Hp) as Hw.
    destruct (trailing_points series period) as [|start rest] eqn:E; [contradiction|].
    assert (Hsub : Forall positive_price (start :: rest)).
    { rewrite Forall_forall in *. intros x Hx. apply Hall.
      apply (trailing_points_incl series period). now rewrite E. }
    rewrite <- trailing_is_trailing_points in E by exact Hp.
    destruct (analyze_trend_window series period start rest Hlen E Hsub)
      as [s [e [Hs [He Hr]]]].
    exists start, rest, s, e. auto.
Qed.

Lemma analyze_trend_two_point_witness :
  exists start rest s e,
    trailing_points [point 100; point 110] 7 = start :: rest /\
    getitem start "price" = Ok (VNum s) /\
    getitem (last rest start) "price" = Ok (VNum e) /\
    analyze_trend [point 100; point 110] 7 = Ok ((e - s) / s * 100)%float.
Proof.
  apply (proj1 (proj2 analyze_trend_two_point)).
  - simpl. lia.
  - lia.
  - repeat constructor; eexists; (split; [reflexivity | reflexivity]).
Defined.

(** A positively priced, non-empty series has a trend over any period of at
    least one point. *)
Lemma analyze_trend_returns (series : list value) (period : Z) :
  series <> [] -> 1 <= period -> Forall positive_price series ->
  exists change, analyze_trend series period = Ok change.
Proof.
  intros Hne Hp Hall.
  destruct series as [|a [|b series]]; [contradiction | now exists 0%float |].
  pose proof (trailing_points_nonempty (a :: b :: series) period Hne Hp) as Hw.
  destruct (trailing_points (a :: b :: series) period) as [|start rest] eqn:E;
    [contradiction|].
  assert (Hsub : Forall positive_price (start :: rest)).
  { rewrite Forall_forall in *. intros x Hx. apply Hall.
    apply (trailing_points_incl (a :: b :: series) period). now rewrite E. }
  rewrite <- trailing_is_trailing_points in E by exact Hp.
  destruct (analyze_trend_window (a :: b :: series) period start rest) as [s [e [_ [_ Hr]]]];
    auto.
  - simpl. lia.
  - eauto.
Qed.

Lemma div_half_even_nearest (num den : Z) :
  0 <= num -> 0 < den ->
  0 <= div_half_even num den /\
  2 * Z.abs (div_half_even num den * den - num) <= den.
Proof.
  intros Hn Hd. unfold div_half_even.
  pose proof (Z.div_mod num den ltac:(lia)) as E.
  pose proof (Z.mod_pos_bound num den Hd) as Hr.
  pose proof (Z.div_pos num den Hn Hd) as Hq.
  set (q := num / den) in *. set (r := num mod den) in *.
  destruct (Z.compare_spec (2 * r) den) as [Heq|Hlt|Hgt];
    try destruct (Z.even q); split; nia.
Qed.


(** *** [round]

    [round_float] is rounding to decimal places, and keeps NaN apart: the
    rounded value is NaN exactly when the value is. *)

Lemma div_half_even_tie (num den : Z) :
  0 <= num -> 0 < den ->
  2 * Z.abs (div_half_even num den * den - num) = den ->
  Z.even (div_half_even num den) = true.
Proof.
  intros Hn Hd. unfold div_half_even.
  pose proof (Z.div_mod num den ltac:(lia)) as E.
  pose proof (Z.mod_pos_bound num den Hd) as Hr.
  set (q := num / den) in *. set (r := num mod den) in *.
  destruct (Z.compare_spec (2 * r) den) as [Heq|Hlt|Hgt].
  - destruct (Z.even q) eqn:Hq; intros _; [exact Hq |].
    rewrite Z.even_add, Hq. reflexivity.
  - intros H. exfalso. nia.
  - intros H. exfalso. nia.
Qed.

Lemma scaled_digits_nearest (m : positive) (e : Z) (nd : nat) :
  0 <= scaled_digits m e nd /\ nearest_decimal m e nd (scaled_digits m e nd).
Proof.
  unfold scaled_digits, nearest_decimal.
  assert (H10 : 0 < 10 ^ Z.of_nat nd) by (apply Z.pow_pos_nonneg; lia).
  destruct (Z.leb_spec 0 e) as [He|He].
  - split; [| reflexivity]. pose proof (Z.pow_nonneg 2 e). nia.
  - assert (Hd : 0 < 2 ^ (- e)) by (apply Z.pow_pos_nonneg; lia).
    destruct (div_half_even_nearest (Z.pos m * 10 ^ Z.of_nat nd) (2 ^ (- e)))
      as [H0 H1]; [nia | exact Hd |].
    split; [exact H0 | split; [exact H1 |]].
    apply div_half_even_tie; [nia | exact Hd].
Qed.

Lemma round_float_rounded_to (x : float) (nd : nat) : rounded_to nd x (round_float x nd).
Proof.
  unfold rounded_to, round_float.
  destruct (Prim2SF x) as [s|s| |s m e]; try reflexivity.
  destruct (scaled_digits_nearest m e nd) as [H0 H1].
  exists (scaled_digits m e nd). split; [exact H0 | split; [exact H1 |]].
  unfold decimal_to_float, quotient_of_ten.
  destruct (scaled_digits m e nd) as [|p|p]; [reflexivity | reflexivity | lia].
Qed.

Lemma round_float_is_nan (x : float) (nd : nat) :
  is_nan (round_float x nd) = is_nan x.
Proof.
  unfold round_float. destruct (Prim2SF x) as [s|s| |s m e] eqn:E; try reflexivity.
  assert (Hx : is_nan x = false) by (apply is_nan_Prim2SF; rewrite E; discriminate).
  rewrite Hx. unfold decimal_to_float.
  destruct (scaled_digits m e nd) as [|p|p]; try (destruct s; reflexivity).
  apply SF2Prim_not_nan, SFdiv_finite_not_nan.
Qed.



End TrendFacts.

(** ** Sorting *)

Module SortFacts.
Import Backup.

Section Insertion.
Context {A K : Type}.
Variable lt : K -> K -> result bool.

Lemma insert_perm (x : K * A) (l r : list (K * A)) :
  insert lt x l = Ok r -> Permutation (x :: l) r.
Proof.
  revert r; induction l as [|y l IH]; intros r; simpl.
  - intros E. injection E as <-. apply Permutation_refl.
  - destruct (lt (fst y) (fst x)) as [[|]|e]; simpl; try discriminate.
    + destruct (insert lt x l) as [r'|e]; simpl; [| discriminate].
      intros E. injection E as <-.
      eapply perm_trans; [apply perm_swap | apply perm_skip, IH; reflexivity].
    + intros E. injection E as <-. apply Permutation_refl.
Qed.

Lemma sort_keyed_perm (l r : list (K * A)) :
  sort_keyed lt l = Ok r -> Permutation l r.
Proof.
  revert r; induction l as [|x l IH]; intros r; simpl.
  - intros E. injection E as <-. apply perm_nil.
  - destruct (sort_keyed lt l) as [s|e]; simpl; [| discriminate].
    intros E. apply insert_perm in E.
    eapply perm_trans; [apply perm_skip, IH; reflexivity | exact E].
Qed.

Hypothesis lt_asym : forall a b, lt a b = Ok true -> lt b a = Ok false.

Lemma insert_hd (x y : K * A) (l r : list (K * A)) :
  insert lt x l = Ok r -> HdRel (not_after lt) y l -> (not_after lt) y x -> HdRel (not_after lt) y r.
Proof.
  destruct l as [|z l]; simpl.
  - intros E _ Hyx. injection E as <-. now constructor.
  - destruct (lt (fst z) (fst x)) as [[|]|e]; simpl; try discriminate.
    + destruct (insert lt x l) as [r'|e]; simpl; [| discriminate].
      intros E Hd _. injection E as <-. inversion Hd; subst. now constructor.
    + intros E _ Hyx. injection E as <-. now constructor.
Qed.

Lemma insert_sorted (x : K * A) (l r : list (K * A)) :
  Sorted (not_after lt) l -> insert lt x l = Ok r -> Sorted (not_after lt) r.
Proof.
  revert r; induction l as [|y l IH]; intros r Hs; simpl.
  - intros E. injection E as <-. repeat constructor.
  - destruct (lt (fst y) (fst x)) as [[|]|e] eqn:Hc; simpl; try discriminate.
    + destruct (insert lt x l) as [r'|e] eqn:Hi; simpl; [| discriminate].
      intros E. injection E as <-. inversion Hs; subst.
      constructor; [now apply IH |].
      eapply insert_hd; eauto. unfold not_after. now apply lt_asym.
    + intros E. injection E as <-. constructor; [exact Hs |].
      constructor. exact Hc.
Qed.

Lemma sort_keyed_sorted (l r : list (K * A)) :
  sort_keyed lt l = Ok r -> Sorted (not_after lt) r.
Proof.
  revert r; induction l as [|x l IH]; intros r; simpl.
  - intros E. injection E as <-. constructor.
  - destruct (sort_keyed lt l) as [s|e]; simpl; [| discriminate].
    intros E. eapply insert_sorted; [apply IH; reflexivity | exact E].
Qed.

End Insertion.

Section Returns.
Context {A K : Type}.
Variable lt : K -> K -> result bool.



End Returns.

Section Keyed.
Context {A K : Type}.
Variable key : A -> result K.

Lemma mapM_keyed (l : list A) (keyed : list (K * A)) :
  mapM (fun x => k <- key x ;; Ok (k, x)) l = Ok keyed ->
  map snd keyed = l /\ Forall (keyed_by key) keyed.
Proof.
  revert keyed; induction l as [|x l IH]; intros keyed; simpl.
  - intros E. injection E as <-. split; constructor.
  - destruct (key x) as [k|e] eqn:Hk; simpl; [| discriminate].
    destruct (mapM _ l) as [ks|e]; simpl; [| discriminate].
    intros E. injection E as <-. destruct (IH ks eq_refl) as [Hm Hf].
    split; [simpl; now rewrite Hm | constructor; [exact Hk | exact Hf]].
Qed.


Lemma mapM_keyed_raises (l : list A) (e : exn) :
  mapM (fun x => k <- key x ;; Ok (k, x)) l = Raise e ->
  exists x, In x l /\ key x = Raise e.
Proof.
  induction l as [|x l IH]; simpl; [discriminate|].
  destruct (key x) as [k|e'] eqn:Hk; simpl.
  - destruct (mapM _ l) as [ks|e'']; simpl; [discriminate|].
    intros E. injection E as ->. destruct (IH eq_refl) as [y [Hin Hy]].
    exists y. auto.
  - intros E. injection E as ->. exists x. auto.
Qed.

End Keyed.

Lemma insert_raises {A K : Type} (lt : K -> K -> result bool)
      (x : K * A) (l : list (K * A)) (e : exn) :
  insert lt x l = Raise e -> exists a b, lt a b = Raise e.
Proof.
  induction l as [|y l IH]; simpl; [discriminate|].
  destruct (lt (fst y) (fst x)) as [[|]|e'] eqn:Hc; simpl.
  - destruct (insert lt x l) as [r|e'']; simpl; [discriminate|].
    intros E. injection E as ->. now apply IH.
  - discriminate.
  - intros E. injection E as ->. eauto.
Qed.

Lemma sort_keyed_raises {A K : Type} (lt : K -> K -> result bool)
      (l : list (K * A)) (e : exn) :
  sort_keyed lt l = Raise e -> exists a b, lt a b = Raise e.
Proof.
  induction l as [|x l IH]; simpl; [discriminate|].
  destruct (sort_keyed lt l) as [s|e']; simpl.
  - apply insert_raises.
  - intros E. injection E as ->. now apply IH.
Qed.

End SortFacts.

(** ** Backup price store *)

Module BackupFacts.
Import Backup SortFacts.

Section WithDatetime.
Context {D : Datetime}.

Lemma date_lt_asym :
  (forall a b : datetime, dt_lt a b = Some true -> dt_lt b a = Some false) ->
  forall a b, date_lt a b = Ok true -> date_lt b a = Ok false.
Proof.
  intros Hasym a b. unfold date_lt.
  destruct (dt_lt a b) as [[|]|] eqn:E; try discriminate.
  intros _. now rewrite (Hasym a b E).
Qed.

Lemma not_after_date_le (x y : datetime * value) :
  keyed_by date_key x -> keyed_by date_key y ->
  not_after date_lt x y -> date_le (snd x) (snd y).
Proof.
  unfold keyed_by, not_after, date_le, date_lt. intros Hx Hy Hc.
  exists (fst x), (fst y). repeat split; auto.
  now destruct (dt_lt (fst y) (fst x)) as [[|]|].
Qed.

Lemma sorted_by_keys (s : list (datetime * value)) :
  Forall (keyed_by date_key) s -> Sorted (not_after date_lt) s ->
  Sorted date_le (map snd s).
Proof.
  induction s as [|x s IH]; intros Hk Hs; simpl; [constructor|].
  inversion Hk as [|? ? Hx Hk']; subst. inversion Hs as [|? ? Hs' Hd]; subst.
  constructor; [now apply IH |].
  destruct s as [|y s]; simpl; constructor.
  inversion Hd; subst. inversion Hk'; subst. now apply not_after_date_le.
Qed.

(** [sorted] returns the items reordered, each dated no later than the next. *)
Lemma sorted_spec (items series : list value) :
  (forall a b : datetime, dt_lt a b = Some true -> dt_lt b a = Some false) ->
  sorted date_lt date_key items = Ok series ->
  Sorted date_le series /\ Permutation items series.
Proof.
  intros Hasym. unfold sorted.
  destruct (mapM _ items) as [keyed|e] eqn:Hm; simpl; [| discriminate].
  destruct (sort_keyed date_lt keyed) as [s|e] eqn:Hs; simpl; [| discriminate].
  intros E. injection E as <-.
  destruct (mapM_keyed date_key items keyed Hm) as [Hmap Hk].
  pose proof (sort_keyed_perm date_lt keyed s Hs) as Hp. split.
  - apply sorted_by_keys.
    + rewrite Forall_forall in *. intros x Hx. apply Hk.
      eapply Permutation_in; [apply Permutation_sym, Hp | exact Hx].
    + eapply sort_keyed_sorted; [apply date_lt_asym, Hasym | exact Hs].
  - rewrite <- Hmap. now apply Permutation_map.
Qed.

Lemma date_key_raises (x : value) (e : exn) :
  date_key x = Raise e -> e = KeyError "date" \/ e = TypeError \/ e = ValueError.
Proof.
  unfold date_key, getitem.
  destruct x as [| | | | |items]; simpl; try (intros E; injection E as <-; auto).
  destruct (lookup "date" items) as [v|]; simpl.
  - destruct v; try (intros E; injection E as <-; auto).
    destruct (fromisoformat s); [discriminate | intros E; injection E as <-; auto].
  - intros E; injection E as <-; auto.
Qed.

Lemma sorted_raises (items : list value) (e : exn) :
  sorted date_lt date_key items = Raise e ->
  e = KeyError "date" \/ e = TypeError \/ e = ValueError.
Proof.
  unfold sorted.
  destruct (mapM _ items) as [keyed|e'] eqn:Hm; simpl.
  - destruct (sort_keyed date_lt keyed) as [s|e''] eqn:Hs; simpl; [discriminate|].
    intros E. injection E as ->.
    destruct (sort_keyed_raises _ _ _ Hs) as [a [b Hab]].
    unfold date_lt in Hab. destruct (dt_lt a b); [discriminate|].
    injection Hab as <-. auto.
  - intros E. injection E as ->.
    destruct (mapM_keyed_raises _ _ _ Hm) as [x [_ Hx]].
    now apply date_key_raises in Hx.
Qed.

Lemma iterate_raises (data : value) (e : exn) :
  iterate data = Raise e -> e = TypeError.
Proof. destruct data; simpl; intros E; now inversion E. Qed.

(** With a JSON document the handler catches nothing: what sorting gives is
    what the caller gets. *)
Lemma get_backup_gold_data_json (data : value) :
  get_backup_gold_data (Json data) =
  (items <- iterate data ;; sorted date_lt date_key items).
Proof.
  unfold get_backup_gold_data. simpl.
  destruct (iterate data) as [items|e] eqn:Hi; simpl.
  - destruct (sorted date_lt date_key items) as [s|e] eqn:Hs; [reflexivity|].
    destruct (sorted_raises _ _ Hs) as [-> | [-> | ->]]; reflexivity.
  - now rewrite (iterate_raises _ _ Hi).
Qed.

(** What the [except] clause lets through reaches the caller. *)
Lemma get_backup_gold_data_unreadable (e : exn) :
  e <> FileNotFoundError -> e <> JSONDecodeError ->
  get_backup_gold_data (Unreadable e) = Raise e.
Proof. intros H1 H2. destruct e; try reflexivity; contradiction. Qed.


Lemma get_backup_gold_data_sorted (file : Backup.snapshot) (series : list value) :
  (forall a b : datetime, dt_lt a b = Some true -> dt_lt b a = Some false) ->
  get_backup_gold_data file = Ok series ->
  series <> [] ->
  Sorted date_le series /\
  exists data items,
    file = Json data /\ iterate data = Ok items /\ Permutation items series.
Proof.
  intros Hasym Hg Hne. destruct file as [|e| |data].
  - injection Hg as <-. contradiction.
  - destruct e; try discriminate; injection Hg as <-; contradiction.
  - injection Hg as <-. contradiction.
  - rewrite get_backup_gold_data_json in Hg.
    destruct (iterate data) as [items|e] eqn:Hi; simpl in Hg; [| discriminate].
    destruct (sorted_spec items series Hasym Hg) as [Hs Hp].
    split; [exact Hs |]. exists data, items. auto.
Qed.


Lemma transitive_date_le :
  (forall a b c : datetime,
     dt_lt b a = Some false -> dt_lt c b = Some false -> dt_lt c a = Some false) ->
  Transitive date_le.
Proof.
  intros Htrans a b c [ta [tb [Ha [Hb Hab]]]] [tb' [tc [Hb' [Hc Hbc]]]].
  rewrite Hb in Hb'. injection Hb' as <-.
  exists ta, tc. repeat split; auto. eapply Htrans; eauto.
Qed.

Lemma strongly_sorted_last {A : Type} (R : A -> A -> Prop) (l : list A) (x : A) :
  StronglySorted R (l ++ [x]) -> Forall (fun e => R e x) l.
Proof.
  induction l as [|a l IH]; simpl; intros Hs; [constructor|].
  inversion Hs as [|? ? Hs' Hall]; subst. constructor.
  - rewrite Forall_forall in Hall. apply Hall, in_or_app. right. now left.
  - now apply IH.
Qed.

End WithDatetime.

(** The calendar instance is lawful. *)
Lemma calendar_lawful : lawful_order Calendar.dates.
Proof.
  split; simpl.
  - intros [[ya ma] da] [[yb mb] db] E. injection E as E. f_equal.
    unfold Calendar.before in *. lia.
  - intros [[ya ma] da] [[yb mb] db] [[yc mc] dc] E1 E2.
    injection E1 as E1. injection E2 as E2. f_equal.
    unfold Calendar.before in *. lia.
Qed.

End BackupFacts.

Module BackupClaims.
Import Backup SortFacts BackupFacts.

(** C4: a non-empty series that the backup store returns has its entries in
    ascending order of date, and is a reordering of the entries of the
    snapshot file, whatever their order there. *)
Theorem backup_series_sorted (D : Datetime) (file : Backup.snapshot) (series : list value) :
  (forall a b : datetime, dt_lt a b = Some true -> dt_lt b a = Some false) ->
  get_backup_gold_data file = Ok series ->
  series <> [] ->
  Sorted date_le series /\
  exists data items,
    file = Json data /\ iterate data = Ok items /\ Permutation items series.
Proof. apply get_backup_gold_data_sorted. Qed.

Lemma backup_series_sorted_witness :
  get_backup_gold_data (D := Calendar.dates) shuffled =
    Ok [dated_entry "2024-01-15" 6000; dated_entry "2024-02-10" 6100;
        dated_entry "2024-03-01" 6200] /\
  Sorted (date_le (D := Calendar.dates))
    [dated_entry "2024-01-15" 6000; dated_entry "2024-02-10" 6100;
     dated_entry "2024-03-01" 6200].
Proof.
  split; [reflexivity |].
  apply (backup_series_sorted Calendar.dates shuffled).
  - apply (lt_asym _ calendar_lawful).
  - reflexivity.
  - discriminate.
Defined.




End BackupClaims.

(** ** Live price fetcher *)

Module LivePriceFacts.
Import Backup SortFacts BackupFacts LivePrice BackupClaims.

Lemma last_item_app (l : list value) (x : value) : last_item (l ++ [x]) = Ok x.
Proof. unfold last_item. now rewrite rev_app_distr. Qed.

Lemma live_price_none (env : environment) :
  has_key (GOLD_API_KEY env) = false \/ (exists e, spot_response env = Raise e) ->
  live_price env = None.
Proof.
  unfold live_price. intros [-> | [e He]]; [reflexivity|].
  rewrite He. now destruct (has_key _).
Qed.

(** C1 (as amended): when no credential is set or the live call fails, the
    current price is the price of the last entry of the backup series, tagged
    [backup], and no other entry is dated later; when the backup series is
    empty the result is an [error] value without a price field, and the
    series is empty for a missing snapshot file, for text that [json.load]
    rejects as not JSON and for an empty array.  The fetcher calls the
    backup store outside any [try]: whatever the store raises, the fetcher
    raises, so a snapshot that cannot be opened or decoded makes it raise
    the exception of the read. *)
Theorem live_price_fallback (D : Datetime) (env : environment) :
  lawful_order D ->
  has_key (GOLD_API_KEY env) = false \/ (exists e, spot_response env = Raise e) ->
  (forall earlier latest price,
     get_backup_gold_data (backup_file env) = Ok (earlier ++ [latest])%list ->
     getitem latest "price" = Ok price ->
     get_live_gold_price env =
       Ok (VDict [("source", VStr "backup"); ("current_price_inr_per_gram", price)]) /\
     Forall (fun entry => date_le entry latest) earlier) /\
  (get_backup_gold_data (backup_file env) = Ok [] ->
   exists items,
     get_live_gold_price env = Ok (VDict items) /\
     lookup "error" items = Some (VStr unavailable) /\
     lookup "current_price_inr_per_gram" items = None) /\
  (backup_file env = NoSuchFile \/ backup_file env = NotJson \/
   backup_file env = Json (VList []) ->
   get_backup_gold_data (backup_file env) = Ok []) /\
  (forall e,
     get_backup_gold_data (backup_file env) = Raise e ->
     get_live_gold_price env = Raise e) /\
  (forall e,
     backup_file env = Unreadable e ->
     e <> FileNotFoundError -> e <> JSONDecodeError ->
     get_live_gold_price env = Raise e).
Proof.
  intros [Hasym Htrans] Hlive. apply live_price_none in Hlive.
  unfold get_live_gold_price. rewrite Hlive. split; [| split; [| split; [| split]]].
  - intros earlier latest price Hb Hp. split.
    + rewrite Hb. simpl.
      replace (truthy_list (earlier ++ [latest])%list) with true by now destruct earlier.
      rewrite last_item_app. simpl. now rewrite Hp.
    + destruct (get_backup_gold_data_sorted (backup_file env)
                  (earlier ++ [latest])%list Hasym Hb) as [Hs _];
        [now destruct earlier |].
      apply strongly_sorted_last.
      apply Sorted_StronglySorted; [now apply transitive_date_le | exact Hs].
  - intros ->. simpl. eexists. repeat split.
  - intros [-> | [-> | ->]]; reflexivity.
  - intros e ->. reflexivity.
  - intros e -> H1 H2. now rewrite get_backup_gold_data_unreadable.
Qed.

Lemma live_price_fallback_witness :
  (get_live_gold_price (D := Calendar.dates) (offline shuffled) =
     Ok (VDict [("source", VStr "backup"); ("current_price_inr_per_gram", VNum 6200)]) /\
   Forall (fun entry => date_le (D := Calendar.dates) entry (dated_entry "2024-03-01" 6200))
     [dated_entry "2024-01-15" 6000; dated_entry "2024-02-10" 6100]) /\
  get_live_gold_price (D := Calendar.dates) (offline (Unreadable PermissionError)) =
    Raise PermissionError.
Proof.
  split.
  - apply (proj1 (live_price_fallback Calendar.dates (offline shuffled) calendar_lawful
                    (or_introl eq_refl))
             [dated_entry "2024-01-15" 6000; dated_entry "2024-02-10" 6100]
             (dated_entry "2024-03-01" 6200) (VNum 6200)).
    + reflexivity.
    + reflexivity.
  - apply (proj2 (proj2 (proj2 (proj2
             (live_price_fallback Calendar.dates (offline (Unreadable PermissionError))
                calendar_lawful (or_introl eq_refl)))))).
    + reflexivity.
    + discriminate.
    + discriminate.
Defined.

(** An unreadable snapshot, concretely: with no credential and a snapshot
    whose bytes cannot be decoded, the fetcher raises [UnicodeDecodeError]. *)
Lemma live_price_undecodable :
  get_live_gold_price (D := Calendar.dates) (offline (Unreadable UnicodeDecodeError)) =
  Raise UnicodeDecodeError.
Proof. reflexivity. Qed.

(** C1, the claim as stated fails: with no credential and a snapshot whose
    entry has a date and no price, the lookup of the price raises. *)
Lemma live_price_raises :
  get_live_gold_price (D := Calendar.dates)
    (offline (Json (VList [VDict [("date", VStr "2024-01-15")]]))) =
  Raise (KeyError "price").
Proof. reflexivity. Qed.

End LivePriceFacts.

(** ** Purchase recorder *)

Module PurchaseFacts.
Import Purchase FloatFacts TrendFacts.

Lemma add_transaction_stores (db : database) (user_id : Z) (amount grams price : float) :
  is_nan amount = false -> is_nan grams = false -> is_nan price = false ->
  add_transaction db user_id amount grams price =
  Ok (new_transaction db user_id amount grams price,
      {| users := users db;
         transactions :=
           (transactions db ++ [new_transaction db user_id amount grams price])%list |}).
Proof.
  intros Ha Hg Hp. unfold add_transaction, not_null. now rewrite Ha, Hg, Hp.
Qed.

Lemma add_transaction_refuses (db : database) (user_id : Z) (amount grams price : float) :
  is_nan amount = true \/ is_nan grams = true \/ is_nan price = true ->
  add_transaction db user_id amount grams price = Raise IntegrityError.
Proof.
  unfold add_transaction, not_null.
  intros [H | [H | H]]; rewrite H; simpl;
    try reflexivity; destruct (is_nan amount); simpl; try reflexivity;
    destruct (is_nan grams); reflexivity.
Qed.

Lemma add_transaction_outcome (db : database) (user_id : Z) (amount grams price : float) :
  (is_nan amount = false /\ is_nan grams = false /\ is_nan price = false) \/
  (is_nan amount = true \/ is_nan grams = true \/ is_nan price = true).
Proof.
  destruct (is_nan amount), (is_nan grams), (is_nan price); auto 6.
Qed.

Lemma booked_transactions (request : PurchaseRequest) (db : database) :
  transactions (snd (booked request db)) = transactions db.
Proof.
  unfold booked. now destruct (first_user_by_email db (user_email request)).
Qed.

(** The handler past its two checks and the division. *)
Lemma buy_steps (request : PurchaseRequest) (db : database) :
  nudge_to_invest request = true ->
  (amount_inr request <? 10)%float = false ->
  (quoted_price_inr_per_gram request =? 0)%float = false ->
  buy_digital_gold request db =
  (let grams := round_float (amount_inr request / quoted_price_inr_per_gram request) 4 in
   match add_transaction (snd (booked request db)) (User_id (fst (booked request db)))
           (amount_inr request) grams
           (round_float (quoted_price_inr_per_gram request) 2) with
   | Raise e => (Raise e, snd (booked request db))
   | Ok (transaction, db2) =>
       (Ok {| success := true; message := Purchase_successful grams;
              transaction_id := Transaction_id transaction;
              grams_purchased := grams |}, db2)
   end).
Proof.
  intros Hn Ha Hp. unfold buy_digital_gold, float_div, booked.
  rewrite Hn, Ha, Hp. cbn [negb].
  now destruct (first_user_by_email db (user_email request)).
Qed.

(** What an accepted purchase leaves: the response, and one transaction
    more. *)
Lemma buy_accepted (request : PurchaseRequest) (db : database) :
  nudge_to_invest request = true ->
  (amount_inr request <? 10)%float = false ->
  (quoted_price_inr_per_gram request =? 0)%float = false ->
  is_nan (amount_inr request) = false ->
  is_nan (quoted_price_inr_per_gram request) = false ->
  is_nan (amount_inr request / quoted_price_inr_per_gram request) = false ->
  exists user db1 t,
    buy_digital_gold request db =
      (Ok {| success := true;
             message := Purchase_successful (Transaction_grams_purchased t);
             transaction_id := Transaction_id t;
             grams_purchased := Transaction_grams_purchased t |},
       {| users := users db1; transactions := (transactions db ++ [t])%list |}) /\
    booked request db = (user, db1) /\
    transactions db1 = transactions db /\
    Transaction_id t = next_id (map Transaction_id (transactions db)) /\
    Transaction_user_id t = User_id user /\
    Transaction_amount_inr t = amount_inr request /\
    Transaction_grams_purchased t =
      round_float (amount_inr request / quoted_price_inr_per_gram request) 4 /\
    Transaction_gold_price_per_gram t =
      round_float (quoted_price_inr_per_gram request) 2.
Proof.
  intros Hn Ha Hp Hna Hnp Hnq. rewrite (buy_steps request db Hn Ha Hp). cbv zeta.
  rewrite add_transaction_stores; try (rewrite round_float_is_nan); auto.
  pose proof (booked_transactions request db) as Ht.
  destruct (booked request db) as [user db1]. cbn [fst snd] in *.
  exists user, db1.
  exists (new_transaction db1 (User_id user) (amount_inr request)
            (round_float (amount_inr request / quoted_price_inr_per_gram request) 4)
            (round_float (quoted_price_inr_per_gram request) 2)).
  rewrite Ht. split; [reflexivity |].
  unfold new_transaction. cbn. rewrite Ht. repeat split; reflexivity.
Qed.

(** The handler answers only what it accepts. *)
Lemma buy_outcome (request : PurchaseRequest) (db : database)
      (response : PurchaseResponse) (db' : database) :
  buy_digital_gold request db = (Ok response, db') ->
  nudge_to_invest request = true /\
  (amount_inr request <? 10)%float = false /\
  (quoted_price_inr_per_gram request =? 0)%float = false /\
  is_nan (amount_inr request) = false /\
  is_nan (quoted_price_inr_per_gram request) = false /\
  is_nan (amount_inr request / quoted_price_inr_per_gram request) = false.
Proof.
  intros E.
  destruct (nudge_to_invest request) eqn:Hn;
    [| unfold buy_digital_gold in E; rewrite Hn in E; discriminate].
  destruct (amount_inr request <? 10)%float eqn:Ha;
    [unfold buy_digital_gold in E; rewrite Hn, Ha in E; discriminate |].
  destruct (quoted_price_inr_per_gram request =? 0)%float eqn:Hp;
    [unfold buy_digital_gold, float_div in E; rewrite Hn, Ha, Hp in E; discriminate |].
  rewrite (buy_steps request db Hn Ha Hp) in E. cbv zeta in E.
  destruct (add_transaction_outcome (snd (booked request db))
              (User_id (fst (booked request db))) (amount_inr request)
              (round_float (amount_inr request / quoted_price_inr_per_gram request) 4)
              (round_float (quoted_price_inr_per_gram request) 2))
    as [[H1 [H2 H3]] | H].
  - rewrite round_float_is_nan in H2, H3. auto 7.
  - rewrite (add_transaction_refuses _ _ _ _ _ H) in E. discriminate.
Qed.

(** A value that the transaction table refuses stops the purchase at the
    second commit. *)
Lemma buy_refused (request : PurchaseRequest) (db : database) :
  nudge_to_invest request = true ->
  (amount_inr request <? 10)%float = false ->
  (quoted_price_inr_per_gram request =? 0)%float = false ->
  is_nan (amount_inr request) = true \/
  is_nan (quoted_price_inr_per_gram request) = true \/
  is_nan (amount_inr request / quoted_price_inr_per_gram request) = true ->
  buy_digital_gold request db = (Raise IntegrityError, snd (booked request db)).
Proof.
  intros Hn Ha Hp H. rewrite (buy_steps request db Hn Ha Hp). cbv zeta.
  rewrite add_transaction_refuses; [reflexivity |].
  rewrite !round_float_is_nan. tauto.
Qed.

(** C8 (as amended): a request with the nudge flag false, and a request with
    an amount under 10, is refused with status 400 and leaves the database as
    it was; a request that passes both checks, quotes a price other than
    zero, and whose amount, price and quotient are numbers (not NaN) gets
    [success = true]; a request that passes both checks with a price other
    than zero and a NaN among the three gets no response: the commit of the
    transaction raises [IntegrityError]. *)
Theorem buy_validation (request : PurchaseRequest) (db : database) :
  (nudge_to_invest request = false ->
   exists detail,
     buy_digital_gold request db = (Raise (HTTPException 400 detail), db)) /\
  ((amount_inr request <? 10)%float = true ->
   exists detail,
     buy_digital_gold request db = (Raise (HTTPException 400 detail), db)) /\
  (nudge_to_invest request = true ->
   (amount_inr request <? 10)%float = false ->
   (quoted_price_inr_per_gram request =? 0)%float = false ->
   is_nan (amount_inr request) = false ->
   is_nan (quoted_price_inr_per_gram request) = false ->
   is_nan (amount_inr request / quoted_price_inr_per_gram request) = false ->
   exists response db',
     buy_digital_gold request db = (Ok response, db') /\
     success response = true) /\
  (nudge_to_invest request = true ->
   (amount_inr request <? 10)%float = false ->
   (quoted_price_inr_per_gram request =? 0)%float = false ->
   is_nan (amount_inr request) = true \/
   is_nan (quoted_price_inr_per_gram request) = true \/
   is_nan (amount_inr request / quoted_price_inr_per_gram request) = true ->
   exists db',
     buy_digital_gold request db = (Raise IntegrityError, db') /\
     transactions db' = transactions db).
Proof.
  split; [| split; [| split]].
  - intros Hn. unfold buy_digital_gold. rewrite Hn. simpl. eauto.
  - intros Ha. unfold buy_digital_gold. rewrite Ha.
    destruct (nudge_to_invest request); simpl; eauto.
  - intros Hn Ha Hp Hna Hnp Hnq.
    destruct (buy_accepted request db Hn Ha Hp Hna Hnp Hnq) as [user [db1 [t [E _]]]].
    rewrite E. eauto.
  - intros Hn Ha Hp H. rewrite (buy_refused request db Hn Ha Hp H).
    eexists. split; [reflexivity | apply booked_transactions].
Qed.

Lemma buy_validation_witness :
  (exists detail,
     buy_digital_gold (order 5 6000 true) empty = (Raise (HTTPException 400 detail), empty)) /\
  (exists detail,
     buy_digital_gold (order 1000 6000 false) empty =
       (Raise (HTTPException 400 detail), empty)) /\
  (exists response db',
     buy_digital_gold (order 1000 6000 true) empty = (Ok response, db') /\
     success response = true) /\
  (exists db',
     buy_digital_gold (order nan 6000 true) empty = (Raise IntegrityError, db') /\
     transactions db' = transactions empty).
Proof.
  split; [| split; [| split]].
  - apply (proj1 (proj2 (buy_validation (order 5 6000 true) empty))). reflexivity.
  - apply (proj1 (buy_validation (order 1000 6000 false) empty)). reflexivity.
  - apply (proj1 (proj2 (proj2 (buy_validation (order 1000 6000 true) empty))));
      reflexivity.
  - apply (proj2 (proj2 (proj2 (buy_validation (order nan 6000 true) empty))));
      try reflexivity.
    left. reflexivity.
Defined.

(** C8, the claim as stated fails: a request that passes both checks and
    quotes the price 0 gets no response; the division raises. *)
Lemma buy_zero_price_raises :
  nudge_to_invest (order 1000 0 true) = true /\
  (amount_inr (order 1000 0 true) <? 10)%float = false /\
  buy_digital_gold (order 1000 0 true) empty = (Raise ZeroDivisionError, empty).
Proof. repeat split. Qed.

(** A NaN amount passes both checks as well, and is stopped only at the
    commit of the transaction, the new user being stored already. *)
Lemma buy_nan_amount_raises :
  nudge_to_invest (order nan 6000 true) = true /\
  (amount_inr (order nan 6000 true) <? 10)%float = false /\
  buy_digital_gold (order nan 6000 true) empty =
    (Raise IntegrityError,
     {| users := [{| User_id := 1; User_name := "Asha";
                     User_email := "asha@example.com" |}];
        transactions := [] |}).
Proof. repeat split. Qed.

(** C9: an accepted purchase answers with the amount divided by the quoted
    price, rounded to 4 decimal places, and appends one transaction that
    stores the amount, these grams and the quoted price rounded to 2 decimal
    places.  Rounding to [nd] places takes the integer nearest to the value
    times [10^nd], the even one of two equally near, and the binary64 nearest
    to that integer over [10^nd].  1000 at 6000 per gram is 0.1667 grams at
    the stored price 6000; 1000 at 6172.835 per gram is 0.162 grams at the
    stored price 6172.84. *)
Theorem buy_grams :
  (forall request db response db',
     buy_digital_gold request db = (Ok response, db') ->
     rounded_to 4 (amount_inr request / quoted_price_inr_per_gram request)
       (grams_purchased response) /\
     grams_purchased response =
       round_float (amount_inr request / quoted_price_inr_per_gram request) 4 /\
     exists t,
       transactions db' = (transactions db ++ [t])%list /\
       Transaction_id t = transaction_id response /\
       Transaction_amount_inr t = amount_inr request /\
       Transaction_grams_purchased t = grams_purchased response /\
       rounded_to 2 (quoted_price_inr_per_gram request)
         (Transaction_gold_price_per_gram t) /\
       Transaction_gold_price_per_gram t =
         round_float (quoted_price_inr_per_gram request) 2) /\
  (forall db, exists response db' t,
     buy_digital_gold (order 1000 6000 true) db = (Ok response, db') /\
     transactions db' = (transactions db ++ [t])%list /\
     grams_purchased response = 0.1667%float /\
     format_f (grams_purchased response) 4 = "0.1667" /\
     Transaction_grams_purchased t = 0.1667%float /\
     Transaction_gold_price_per_gram t = 6000%float) /\
  (forall db, exists response db' t,
     buy_digital_gold (order 1000 6172.835 true) db = (Ok response, db') /\
     transactions db' = (transactions db ++ [t])%list /\
     grams_purchased response = 0.162%float /\
     format_f (grams_purchased response) 4 = "0.1620" /\
     Transaction_grams_purchased t = 0.162%float /\
     Transaction_gold_price_per_gram t = 6172.84%float /\
     format_f (Transaction_gold_price_per_gram t) 2 = "6172.84") /\
  round_float 6172.835 2 = 6172.84%float /\
  round_float 2.675 2 = 2.67%float /\
  round_float 0.125 2 = 0.12%float /\
  round_float 0.375 2 = 0.38%float /\
  round_float (-6000.456) 2 = (-6000.46)%float /\
  round_float (1000 / 6172.835) 4 = 0.162%float /\
  round_float 0.16665 4 = 0.1666%float /\
  round_float 0.00004 4 = 0%float.
Proof.
  split; [| split; [| split]].
  - intros request db response db' E.
    destruct (buy_outcome request db response db' E)
      as [Hn [Ha [Hp [Hna [Hnp Hnq]]]]].
    destruct (buy_accepted request db Hn Ha Hp Hna Hnp Hnq)
      as [user [db1 [t [E' [_ [_ [_ [_ [Hamt [Hg Hpr]]]]]]]]]].
    rewrite E' in E. injection E as <- <-. cbn [grams_purchased transaction_id transactions].
    rewrite Hg. split; [apply round_float_rounded_to |]. split; [reflexivity |].
    exists t. rewrite Hpr, Hg.
    repeat split; try assumption; apply round_float_rounded_to.
  - intros db.
    destruct (buy_accepted (order 1000 6000 true) db)
      as [user [db1 [t [E [_ [_ [_ [_ [_ [Hg Hpr]]]]]]]]]]; try reflexivity.
    rewrite E. do 2 eexists. exists t. split; [reflexivity |].
    cbn [grams_purchased transactions]. rewrite Hg, Hpr.
    repeat split; vm_compute; reflexivity.
  - intros db.
    destruct (buy_accepted (order 1000 6172.835 true) db)
      as [user [db1 [t [E [_ [_ [_ [_ [_ [Hg Hpr]]]]]]]]]]; try reflexivity.
    rewrite E. do 2 eexists. exists t. split; [reflexivity |].
    cbn [grams_purchased transactions]. rewrite Hg, Hpr.
    repeat split; vm_compute; reflexivity.
  - repeat split; vm_compute; reflexivity.
Qed.

Lemma buy_grams_witness :
  exists response db',
    buy_digital_gold (order 1000 6172.835 true) empty = (Ok response, db') /\
    rounded_to 4 (1000 / 6172.835)%float (grams_purchased response) /\
    grams_purchased response = round_float (1000 / 6172.835)%float 4.
Proof.
  do 2 eexists. split; [reflexivity |].
  pose proof (proj1 buy_grams (order 1000 6172.835 true) empty _ _ eq_refl) as H.
  split; [exact (proj1 H) | exact (proj1 (proj2 H))].
Defined.

(** C10: a request that passes both checks of the handler (nudge accepted,
    amount at least 10) and quotes the price 0 reaches the division, which
    raises [ZeroDivisionError]; nothing is stored. *)
Theorem buy_unguarded_division (request : PurchaseRequest) (db : database) :
  nudge_to_invest request = true ->
  (10 <=? amount_inr request)%float = true ->
  (quoted_price_inr_per_gram request =? 0)%float = true ->
  buy_digital_gold request db = (Raise ZeroDivisionError, db).
Proof.
  intros Hn Ha Hp. unfold buy_digital_gold, float_div.
  now rewrite Hn, (leb_not_ltb _ _ Ha), Hp.
Qed.

Lemma buy_unguarded_division_witness :
  buy_digital_gold (order 10 0 true) empty = (Raise ZeroDivisionError, empty).
Proof.
  apply buy_unguarded_division; reflexivity.
Defined.

End PurchaseFacts.

(* ================================================================== *)
(** * Part IV: further properties *)
(* ================================================================== *)

(** ** Trend analyzer: edges *)

Module TrendEdges.
Import Trend TrendFacts FloatFacts.

Lemma mapM_raises {A B : Type} (f : A -> result B) (l : list A) (e : exn) :
  mapM f l = Raise e -> exists x, In x l /\ f x = Raise e.
Proof.
  induction l as [|x l IH]; simpl; [discriminate|].
  destruct (f x) as [y|e'] eqn:Hx; simpl.
  - destruct (mapM f l) as [ys|e'']; simpl; [discriminate|].
    intros E. injection E as ->. destruct (IH eq_refl) as [z [Hin Hz]]. eauto.
  - intros E. injection E as ->. eauto.
Qed.

Lemma mapM_returns_all {A B : Type} (f : A -> result B) (l : list A) (ys : list B) :
  mapM f l = Ok ys -> Forall (fun x => exists y, f x = Ok y) l.
Proof.
  revert ys; induction l as [|x l IH]; intros ys; simpl; [constructor|].
  destruct (f x) as [y|e] eqn:Hx; simpl; [| discriminate].
  destruct (mapM f l) as [ys'|e]; simpl; [| discriminate].
  intros _. constructor; eauto.
Qed.

(** The prices of a window of numerically priced entries. *)
Lemma prices_of_priced_window (start : value) (rest : list value) :
  Forall priced (start :: rest) ->
  exists s e ps,
    getitem start "price" = Ok (VNum s) /\
    getitem (last rest start) "price" = Ok (VNum e) /\
    mapM (fun entry => getitem entry "price") (start :: rest) = Ok (VNum s :: ps) /\
    last ps (VNum s) = VNum e.
Proof.
  revert start; induction rest as [|x rest IH]; intros start Hall.
  - inversion Hall as [|? ? [s Hs] _]; subst.
    exists s, s, []. simpl. rewrite Hs. auto.
  - inversion Hall as [|? ? [s Hs] Hrest]; subst.
    destruct (IH x Hrest) as [s' [e [ps [Hx [He [Hm Hl]]]]]].
    exists s, e, (VNum s' :: ps).
    change (mapM (fun entry => getitem entry "price") (start :: x :: rest))
      with (y <- getitem start "price" ;;
            ys <- mapM (fun entry => getitem entry "price") (x :: rest) ;;
            Ok (y :: ys)).
    rewrite Hs, Hm. repeat split; auto; now rewrite last_cons.
Qed.

Lemma analyze_trend_long (series : list value) (period : Z) :
  (2 <= List.length series)%nat ->
  analyze_trend series period =
  (recent_prices <- mapM (fun entry => getitem entry "price") (trailing series period) ;;
   start_price <- first_item recent_prices ;;
   end_price <- final_item recent_prices ;;
   percent_change start_price end_price).
Proof.
  intros Hlen. unfold analyze_trend.
  destruct series as [|a [|b series]]; simpl in Hlen; try lia.
  replace (Z.of_nat (List.length (a :: b :: series)) <? 2) with false
    by (symmetry; apply Z.ltb_ge; simpl List.length; lia).
  reflexivity.
Qed.

(** X7: over a series of two or more points that all carry a number as
    price, and a period of at least one point, the trend is the two-point
    change between the first and the last point of the trailing window,
    whatever the sign of the prices, unless the first price is zero: then,
    and only then, [ZeroDivisionError] is raised. *)
Theorem analyze_trend_zero_start (series : list value) (period : Z) :
  (2 <= List.length series)%nat -> 1 <= period -> Forall priced series ->
  exists start rest s e,
    trailing_points series period = start :: rest /\
    getitem start "price" = Ok (VNum s) /\
    getitem (last rest start) "price" = Ok (VNum e) /\
    analyze_trend series period =
      if (s =? 0)%float then Raise ZeroDivisionError
      else Ok ((e - s) / s * 100)%float.
Proof.
  intros Hlen Hp Hall.
  assert (Hne : series <> []) by (destruct series; [simpl in Hlen; lia | discriminate]).
  pose proof (trailing_points_nonempty series period Hne Hp) as Hw.
  destruct (trailing_points series period) as [|start rest] eqn:E; [contradiction|].
  assert (Hsub : Forall priced (start :: rest)).
  { rewrite Forall_forall in *. intros x Hx. apply Hall.
    apply (trailing_points_incl series period). now rewrite E. }
  destruct (prices_of_priced_window start rest Hsub) as [s [e [ps [Hs [He [Hm Hl]]]]]].
  exists start, rest, s, e. repeat split; auto.
  rewrite analyze_trend_long by exact Hlen.
  rewrite trailing_is_trailing_points, E, Hm by exact Hp.
  cbn [bind first_item]. rewrite final_item_last, Hl. cbn [bind].
  unfold percent_change, sub, truediv. simpl.
  now destruct (s =? 0)%float.
Qed.

Lemma analyze_trend_zero_start_witness :
  exists start rest s e,
    trailing_points [point 0; point 6000] 7 = start :: rest /\
    getitem start "price" = Ok (VNum s) /\
    getitem (last rest start) "price" = Ok (VNum e) /\
    analyze_trend [point 0; point 6000] 7 =
      if (s =? 0)%float then Raise ZeroDivisionError
      else Ok ((e - s) / s * 100)%float.
Proof.
  apply analyze_trend_zero_start.
  - simpl. lia.
  - lia.
  - repeat constructor; eexists; reflexivity.
Defined.

(** X8: a period of 0 takes the whole series, as [history[-0:]] does, and a
    negative period whose size reaches the length of the series leaves no
    point, so that reading the first price raises [IndexError]. *)
Theorem analyze_trend_nonpositive_period (series : list value) :
  analyze_trend series 0 = analyze_trend series (Z.of_nat (List.length series)) /\
  (forall period,
     (2 <= List.length series)%nat ->
     period < 0 -> Z.of_nat (List.length series) <= - period ->
     analyze_trend series period = Raise IndexError).
Proof.
  split.
  - unfold analyze_trend, trailing. simpl (0 <? 0).
    destruct series as [|a series]; [reflexivity|].
    replace (0 <? Z.of_nat (List.length (a :: series))) with true
      by (symmetry; apply Z.ltb_lt; simpl List.length; lia).
    replace (Z.min (- 0) (Z.of_nat (List.length (a :: series)))) with 0
      by (simpl List.length; lia).
    now rewrite Z.sub_diag.
  - intros period Hlen Hneg Hbig.
    rewrite analyze_trend_long by exact Hlen. unfold trailing.
    replace (0 <? period) with false by (symmetry; apply Z.ltb_ge; lia).
    rewrite Z.min_r by lia. rewrite Nat2Z.id, skipn_all. reflexivity.
Qed.

Lemma analyze_trend_nonpositive_period_witness :
  analyze_trend [point 100; point 110] (-2) = Raise IndexError.
Proof.
  apply (proj2 (analyze_trend_nonpositive_period [point 100; point 110]));
    simpl; lia.
Defined.

(** X9: over a series of two or more objects and a period of at least one
    point, a point of the trailing window without a price makes the trend
    raise [KeyError] for ["price"]. *)
Theorem analyze_trend_missing_price (series : list value) (period : Z) (entry : value) :
  (2 <= List.length series)%nat -> 1 <= period -> Forall is_object series ->
  In entry (trailing_points series period) ->
  getitem entry "price" = Raise (KeyError "price") ->
  analyze_trend series period = Raise (KeyError "price").
Proof.
  intros Hlen Hp Hobj Hin Hmiss.
  rewrite analyze_trend_long by exact Hlen.
  rewrite trailing_is_trailing_points by exact Hp.
  destruct (mapM _ (trailing_points series period)) as [ps|e] eqn:Hm; simpl.
  - apply mapM_returns_all in Hm. rewrite Forall_forall in Hm.
    destruct (Hm entry Hin) as [y Hy]. congruence.
  - destruct (mapM_raises _ _ _ Hm) as [x [Hx Hr]].
    assert (Hox : is_object x).
    { rewrite Forall_forall in Hobj. apply Hobj.
      now apply (trailing_points_incl series period). }
    destruct Hox as [items ->]. simpl in Hr.
    destruct (lookup "price" items); [discriminate |]. injection Hr as <-. reflexivity.
Qed.

Lemma analyze_trend_missing_price_witness :
  analyze_trend [point 100; VDict [("date", VStr "2024-01-15")]] 7 =
  Raise (KeyError "price").
Proof.
  apply (analyze_trend_missing_price _ _ (VDict [("date", VStr "2024-01-15")])).
  - simpl. lia.
  - lia.
  - repeat constructor; eexists; reflexivity.
  - right. left. reflexivity.
  - reflexivity.
Defined.

(** X10: the trend text of an empty series is the fixed sentence that no
    data is there, and that of a single point, whatever it holds, calls both
    trends stable: nothing of the point is read. *)
Theorem generate_trend_text_short_series :
  generate_trend_text [] = Ok "No sufficient data to determine trend." /\
  (forall entry,
     generate_trend_text [entry] =
       Ok "Gold prices have been relatively stable over the last 7 days and have been relatively stable over the last 30 days.").
Proof.
  split; [reflexivity |]. intros entry. vm_compute. reflexivity.
Qed.

End TrendEdges.

(** ** Purchase recorder: the tables *)

Module PurchaseEdges.
Import Purchase PurchaseFacts.

Lemma next_id_above (ids : list Z) (x : Z) : In x ids -> x < next_id ids.
Proof.
  unfold next_id. induction ids as [|y ids IH]; cbn [fold_right In]; [tauto|].
  intros [-> | Hin]; [lia | specialize (IH Hin); lia].
Qed.

Lemma next_id_fresh (ids : list Z) : ~ In (next_id ids) ids.
Proof. intros Hin. apply next_id_above in Hin. lia. Qed.

Lemma NoDup_snoc {A : Type} (l : list A) (x : A) :
  NoDup l -> ~ In x l -> NoDup (l ++ [x]).
Proof.
  intros Hl Hx. apply NoDup_app; auto; [repeat constructor; simpl; tauto |].
  intros y Hy [<- | []]. contradiction.
Qed.

Lemma find_snoc_none {A : Type} (f : A -> bool) (l : list A) (x : A) :
  find f l = None -> find f (l ++ [x]) = if f x then Some x else None.
Proof.
  induction l as [|y l IH]; simpl; [reflexivity|].
  destruct (f y); [discriminate | exact IH].
Qed.

Lemma first_user_some (db : database) (email : string) (u : User) :
  first_user_by_email db email = Some u -> In u (users db) /\ User_email u = email.
Proof.
  unfold first_user_by_email. intros E. apply find_some in E.
  destruct E as [Hin Heq]. split; [exact Hin | now apply String.eqb_eq].
Qed.

Lemma first_user_none (db : database) (email : string) :
  first_user_by_email db email = None -> ~ In email (map User_email (users db)).
Proof.
  unfold first_user_by_email. intros E Hin. apply in_map_iff in Hin.
  destruct Hin as [u [Hu Hin]]. pose proof (find_none _ _ E u Hin) as Hne.
  simpl in Hne. rewrite Hu, String.eqb_refl in Hne. discriminate.
Qed.

(** The user row of a purchase keeps the tables consistent, and is the row
    the transaction will point to. *)
Lemma booked_consistent (request : PurchaseRequest) (db : database) :
  consistent db ->
  consistent (snd (booked request db)) /\
  In (User_id (fst (booked request db))) (map User_id (users (snd (booked request db)))).
Proof.
  intros [Hmail [Huid [Htid Href]]]. unfold booked.
  destruct (first_user_by_email db (user_email request)) as [u|] eqn:Hu.
  - apply first_user_some in Hu. destruct Hu as [Hin _]. cbn [fst snd].
    split; [repeat split; auto | now apply in_map].
  - apply first_user_none in Hu. unfold add_user, consistent. cbn [fst snd users transactions].
    rewrite !map_app. cbn [map User_id User_email]. split; [repeat split |].
    + now apply NoDup_snoc.
    + apply NoDup_snoc; [exact Huid | apply next_id_fresh].
    + exact Htid.
    + rewrite Forall_forall in *. intros t Ht.
      apply in_or_app. left. now apply Href.
    + apply in_or_app. right. now left.
Qed.

(** How the handler can raise. *)
Lemma buy_raises_cases (request : PurchaseRequest) (db db' : database) (e : exn) :
  buy_digital_gold request db = (Raise e, db') ->
  (db' = db /\
   ((nudge_to_invest request = false /\
     e = HTTPException 400 "Nudge flag is false. Purchase not allowed") \/
    (nudge_to_invest request = true /\ (amount_inr request <? 10)%float = true /\
     e = HTTPException 400 "Minimum purchase is ₹10") \/
    (nudge_to_invest request = true /\ (amount_inr request <? 10)%float = false /\
     (quoted_price_inr_per_gram request =? 0)%float = true /\
     e = ZeroDivisionError))) \/
  (nudge_to_invest request = true /\ (amount_inr request <? 10)%float = false /\
   (quoted_price_inr_per_gram request =? 0)%float = false /\
   (is_nan (amount_inr request) = true \/
    is_nan (quoted_price_inr_per_gram request) = true \/
    is_nan (amount_inr request / quoted_price_inr_per_gram request) = true) /\
   e = IntegrityError /\ db' = snd (booked request db)).
Proof.
  intros E.
  destruct (nudge_to_invest request) eqn:Hn.
  - destruct (amount_inr request <? 10)%float eqn:Ha.
    + unfold buy_digital_gold in E. rewrite Hn, Ha in E. injection E as <- <-.
      left. split; [reflexivity |]. right. left. auto.
    + destruct (quoted_price_inr_per_gram request =? 0)%float eqn:Hp.
      * unfold buy_digital_gold, float_div in E. rewrite Hn, Ha, Hp in E.
        injection E as <- <-. left. split; [reflexivity |]. right. right. auto.
      * right.
        destruct (is_nan (amount_inr request)) eqn:Hna;
          [| destruct (is_nan (quoted_price_inr_per_gram request)) eqn:Hnp;
             [| destruct (is_nan (amount_inr request / quoted_price_inr_per_gram request))
                  eqn:Hnq]].
        -- rewrite (buy_refused request db Hn Ha Hp) in E by auto.
           injection E as <- <-. auto 8.
        -- rewrite (buy_refused request db Hn Ha Hp) in E by auto.
           injection E as <- <-. auto 8.
        -- rewrite (buy_refused request db Hn Ha Hp) in E by auto.
           injection E as <- <-. auto 8.
        -- destruct (buy_accepted request db Hn Ha Hp Hna Hnp Hnq)
             as [user [db1 [t [E' _]]]].
           rewrite E' in E. discriminate.
  - unfold buy_digital_gold in E. rewrite Hn in E. injection E as <- <-.
    left. auto.
Qed.

(** X12: two purchases in a row from an email that no user has create one
    user, under the name and email of the first request, and two
    transactions with consecutive ids, both of that user. *)
Theorem two_purchases_one_user (first second : PurchaseRequest) (db : database) :
  accepted first -> accepted second ->
  user_email second = user_email first ->
  first_user_by_email db (user_email first) = None ->
  exists r1 r2 db1 db2 u t1 t2,
    buy_digital_gold first db = (Ok r1, db1) /\
    buy_digital_gold second db1 = (Ok r2, db2) /\
    users db2 = (users db ++ [u])%list /\
    transactions db2 = (transactions db ++ [t1; t2])%list /\
    User_name u = user_name first /\ User_email u = user_email first /\
    Transaction_user_id t1 = User_id u /\ Transaction_user_id t2 = User_id u /\
    transaction_id r1 = Transaction_id t1 /\ transaction_id r2 = Transaction_id t2 /\
    Transaction_id t2 = Transaction_id t1 + 1.
Proof.
  intros [Hn1 [Ha1 [Hp1 [Hx1 [Hy1 Hz1]]]]] [Hn2 [Ha2 [Hp2 [Hx2 [Hy2 Hz2]]]]] Hmail Hnew.
  destruct (buy_accepted first db Hn1 Ha1 Hp1 Hx1 Hy1 Hz1)
    as [u [dba [t1 [E1 [B1 [_ [I1 [U1 _]]]]]]]].
  unfold booked in B1. rewrite Hnew in B1. unfold add_user in B1.
  injection B1 as <- <-. cbn [users] in E1.
  set (u := {| User_id := next_id (map User_id (users db));
               User_name := user_name first; User_email := user_email first |}) in *.
  set (db1 := {| users := (users db ++ [u])%list;
                 transactions := (transactions db ++ [t1])%list |}) in *.
  assert (Hfound : first_user_by_email db1 (user_email second) = Some u).
  { unfold first_user_by_email, db1. cbn [users]. rewrite Hmail.
    unfold first_user_by_email in Hnew. rewrite (find_snoc_none _ _ _ Hnew).
    cbn [User_email u]. now rewrite String.eqb_refl. }
  destruct (buy_accepted second db1 Hn2 Ha2 Hp2 Hx2 Hy2 Hz2)
    as [u2 [dbb [t2 [E2 [B2 [_ [I2 [U2 _]]]]]]]].
  unfold booked in B2. rewrite Hfound in B2. injection B2 as <- <-.
  do 2 eexists. exists db1. eexists. exists u, t1, t2.
  split; [exact E1 |]. split; [exact E2 |].
  cbn [users transactions db1]. rewrite <- app_assoc.
  split; [reflexivity |]. split; [reflexivity |].
  split; [reflexivity |]. split; [reflexivity |].
  split; [exact U1 |]. split; [exact U2 |].
  split; [reflexivity |]. split; [reflexivity |].
  rewrite I2, I1. unfold db1. cbn [transactions]. rewrite map_app. cbn [map].
  rewrite I1.
  unfold next_id. rewrite fold_right_app. cbn [fold_right].
  set (ids := map Transaction_id (transactions db)).
  assert (Hmono : forall (l : list Z) (a : Z), 0 <= a ->
            fold_right Z.max a l = Z.max a (fold_right Z.max 0 l)).
  { induction l as [|x l IH]; intros a Ha; cbn [fold_right]; [lia |].
    rewrite IH by lia. lia. }
  assert (H0 : 0 <= fold_right Z.max 0 ids).
  { clear. induction ids; cbn [fold_right]; lia. }
  rewrite Hmono by lia. lia.
Qed.

Lemma two_purchases_one_user_witness :
  exists r1 r2 db1 db2 u t1 t2,
    buy_digital_gold (order 1000 6000 true) empty = (Ok r1, db1) /\
    buy_digital_gold (order 500 6100 true) db1 = (Ok r2, db2) /\
    users db2 = (users empty ++ [u])%list /\
    transactions db2 = (transactions empty ++ [t1; t2])%list /\
    User_name u = user_name (order 1000 6000 true) /\
    User_email u = user_email (order 1000 6000 true) /\
    Transaction_user_id t1 = User_id u /\ Transaction_user_id t2 = User_id u /\
    transaction_id r1 = Transaction_id t1 /\ transaction_id r2 = Transaction_id t2 /\
    Transaction_id t2 = Transaction_id t1 + 1.
Proof.
  apply two_purchases_one_user; repeat split.
Defined.

(** X13: a purchase from an email that a user has adds no user and changes
    none: the transaction goes to the first user with that email, whatever
    name the request gives. *)
Theorem known_email_reuses_user (request : PurchaseRequest) (db : database) (u : User) :
  accepted request ->
  first_user_by_email db (user_email request) = Some u ->
  exists response t,
    buy_digital_gold request db =
      (Ok response,
       {| users := users db; transactions := (transactions db ++ [t])%list |}) /\
    Transaction_user_id t = User_id u /\
    In u (users db) /\ User_email u = user_email request.
Proof.
  intros [Hn [Ha [Hp [Hx [Hy Hz]]]]] Hu.
  destruct (buy_accepted request db Hn Ha Hp Hx Hy Hz)
    as [u' [db1 [t [E [B [_ [_ [U _]]]]]]]].
  unfold booked in B. rewrite Hu in B. injection B as <- <-.
  do 2 eexists. split; [exact E |]. split; [exact U |].
  now apply first_user_some.
Qed.

Lemma known_email_reuses_user_witness :
  exists response t,
    buy_digital_gold (order 1000 6000 true) one_customer =
      (Ok response,
       {| users := users one_customer;
          transactions := (transactions one_customer ++ [t])%list |}) /\
    Transaction_user_id t = 7 /\
    In {| User_id := 7; User_name := "Asha K"; User_email := "asha@example.com" |}
       (users one_customer) /\
    "asha@example.com" = user_email (order 1000 6000 true).
Proof.
  apply (known_email_reuses_user (order 1000 6000 true) one_customer
           {| User_id := 7; User_name := "Asha K"; User_email := "asha@example.com" |}).
  - repeat split.
  - reflexivity.
Defined.

(** X14: the handler keeps the tables consistent, accepted or not: keys stay
    unique, no two users share an email, and every transaction belongs to a
    user of the table. *)
Theorem buy_keeps_consistency (request : PurchaseRequest) (db : database) :
  consistent db -> consistent (snd (buy_digital_gold request db)).
Proof.
  intros Hc. destruct (booked_consistent request db Hc) as [Hb Hin].
  destruct (buy_digital_gold request db) as [[response|e] db'] eqn:E; cbn [snd].
  - destruct (buy_outcome request db response db' E)
      as [Hn [Ha [Hp [Hx [Hy Hz]]]]].
    destruct (buy_accepted request db Hn Ha Hp Hx Hy Hz)
      as [user [db1 [t [E' [B [T [I [U _]]]]]]]].
    rewrite E' in E. injection E as _ <-.
    rewrite B in Hb, Hin. cbn [fst snd] in Hb, Hin.
    destruct Hb as [Hmail [Huid [Htid Href]]]. rewrite T in Htid, Href.
    unfold consistent. cbn [users transactions]. repeat split; auto.
    + rewrite map_app. cbn [map]. rewrite I.
      apply NoDup_snoc; [exact Htid | apply next_id_fresh].
    + apply Forall_app. split; [exact Href |].
      repeat constructor. now rewrite U.
  - destruct (buy_raises_cases request db db' e E) as [[-> _] | [_ [_ [_ [_ [_ ->]]]]]];
      assumption.
Qed.

Lemma buy_keeps_consistency_witness :
  consistent (snd (buy_digital_gold (order 1000 6000 true) one_customer)).
Proof.
  apply buy_keeps_consistency. repeat split; simpl.
  - repeat constructor; simpl; tauto.
  - repeat constructor; simpl; tauto.
  - constructor.
  - constructor.
Defined.

(** X15: the handler raises in four cases only, met in this order: the nudge
    flag is false (400), the amount is under 10 (400), the quoted price is
    zero ([ZeroDivisionError]), and the amount, the price or their quotient
    is NaN ([IntegrityError] at the commit of the transaction).  In the first
    three it has stored nothing; in the fourth it has stored no transaction,
    and the user of the request if the email was new. *)
Theorem buy_raises_only (request : PurchaseRequest) (db db' : database) (e : exn) :
  buy_digital_gold request db = (Raise e, db') ->
  (db' = db /\
   ((nudge_to_invest request = false /\
     e = HTTPException 400 "Nudge flag is false. Purchase not allowed") \/
    (nudge_to_invest request = true /\ (amount_inr request <? 10)%float = true /\
     e = HTTPException 400 "Minimum purchase is ₹10") \/
    (nudge_to_invest request = true /\ (amount_inr request <? 10)%float = false /\
     (quoted_price_inr_per_gram request =? 0)%float = true /\
     e = ZeroDivisionError))) \/
  (nudge_to_invest request = true /\ (amount_inr request <? 10)%float = false /\
   (quoted_price_inr_per_gram request =? 0)%float = false /\
   (is_nan (amount_inr request) = true \/
    is_nan (quoted_price_inr_per_gram request) = true \/
    is_nan (amount_inr request / quoted_price_inr_per_gram request) = true) /\
   e = IntegrityError /\
   transactions db' = transactions db /\
   users db' =
     match first_user_by_email db (user_email request) with
     | Some _ => users db
     | None =>
         (users db ++ [{| User_id := next_id (map User_id (users db));
                          User_name := user_name request;
                          User_email := user_email request |}])%list
     end).
Proof.
  intros E.
  destruct (buy_raises_cases request db db' e E)
    as [H | [Hn [Ha [Hp [Hnan [He ->]]]]]]; [left; exact H | right].
  repeat (split; [assumption |]). split; [apply booked_transactions |].
  unfold booked. now destruct (first_user_by_email db (user_email request)).
Qed.

Lemma buy_raises_only_witness :
  buy_digital_gold (order 5 6000 false) empty =
    (Raise (HTTPException 400 "Nudge flag is false. Purchase not allowed"), empty) /\
  buy_digital_gold (order nan 6000 true) one_customer =
    (Raise IntegrityError, one_customer) /\
  exists db',
    buy_digital_gold (order 1000 nan true) empty = (Raise IntegrityError, db') /\
    transactions db' = [] /\
    users db' = [{| User_id := 1; User_name := "Asha"; User_email := "asha@example.com" |}].
Proof.
  split; [reflexivity | split; [reflexivity |]].
  eexists. split; [reflexivity |].
  destruct (buy_raises_only (order 1000 nan true) empty _ IntegrityError eq_refl)
    as [[_ [[_ H] | [[_ [_ H]] | [_ [_ [_ H]]]]]] | [_ [_ [_ [_ [_ H]]]]]];
    try discriminate H.
  exact H.
Defined.

End PurchaseEdges.

(** ** Response composer *)

Module ComposerFacts.
Import Composer WordFacts.

Lemma append_empty (s : string) : s ++ "" = s.
Proof. induction s; simpl; congruence. Qed.

Lemma unspaced_app (a b : string) :
  unspaced (a ++ b) = (unspaced a && unspaced b)%bool.
Proof.
  induction a as [|c a IH]; simpl; [reflexivity|].
  rewrite IH. now rewrite andb_assoc.
Qed.

Lemma split_from_words (current s : string) :
  unspaced current = true -> Forall word (split_from current s).
Proof.
  revert current; induction s as [|c s IH]; intros current Hc; simpl.
  - destruct current; repeat constructor; [discriminate | exact Hc].
  - destruct (is_space c) eqn:Hs.
    + destruct current.
      * now apply IH.
      * constructor; [split; [discriminate | exact Hc] | now apply IH].
    + apply IH. rewrite unspaced_app, Hc. simpl. now rewrite Hs.
Qed.

(** Reading a word moves it to the word begun. *)
Lemma split_from_word (current w rest : string) :
  unspaced w = true ->
  split_from current (w ++ rest) = split_from (current ++ w) rest.
Proof.
  revert current; induction w as [|c w IH]; intros current Hw; simpl.
  - now rewrite append_empty.
  - simpl in Hw. apply andb_true_iff in Hw. destruct Hw as [Hc Hw].
    apply negb_true_iff in Hc. rewrite Hc, IH by exact Hw.
    now rewrite append_assoc.
Qed.

Lemma split_concat (ws : list string) :
  Forall word ws -> split (String.concat " " ws) = ws.
Proof.
  unfold split. induction 1 as [|w ws [Hne Hw] Hws IH]; [reflexivity|].
  destruct ws as [|w' ws].
  - simpl. rewrite <- (append_empty w) at 1.
    rewrite split_from_word by exact Hw. simpl. now destruct w.
  - change (String.concat " " (w :: w' :: ws))
      with (w ++ String " " (String.concat " " (w' :: ws))).
    rewrite split_from_word by exact Hw. cbn [split_from append].
    change (is_space " ") with true. cbv iota.
    rewrite IH. now destruct w.
Qed.

Lemma squeeze_app (a b : string) : squeeze (a ++ b) = squeeze a ++ squeeze b.
Proof.
  induction a as [|c a IH]; simpl; [reflexivity|].
  rewrite IH. now destruct (is_space c).
Qed.

Lemma squeeze_unspaced (w : string) : unspaced w = true -> squeeze w = w.
Proof.
  induction w as [|c w IH]; simpl; [reflexivity|].
  intros H. apply andb_true_iff in H. destruct H as [Hc Hw].
  apply negb_true_iff in Hc. now rewrite Hc, IH.
Qed.

Lemma concat_split_from (current s : string) :
  unspaced current = true ->
  String.concat "" (split_from current s) = current ++ squeeze s.
Proof.
  revert current; induction s as [|c s IH]; intros current Hc; simpl.
  - destruct current; simpl; [reflexivity | now rewrite append_empty].
  - destruct (is_space c) eqn:Hs.
    + destruct current as [|d current]; [now apply IH |].
      change (String.concat "" (String d current :: split_from "" s))
        with (match split_from "" s with
              | [] => String d current
              | _ => String d current ++ "" ++ String.concat "" (split_from "" s)
              end).
      pose proof (IH "" eq_refl) as E. simpl in E.
      destruct (split_from "" s); simpl in *; rewrite <- E; [now rewrite append_empty | reflexivity].
    + rewrite IH by (rewrite unspaced_app, Hc; simpl; now rewrite Hs).
      now rewrite append_assoc.
Qed.

(** X11: the cleaned text is the words of the text, none of them empty and
    none holding whitespace, joined by single spaces; the words hold every
    character of the text that is not whitespace, in order; cleaning keeps
    the words, and cleaning twice is cleaning once. *)
Theorem clean_text_normal_form (s : string) :
  _clean_text s = String.concat " " (split s) /\
  Forall word (split s) /\
  String.concat "" (split s) = squeeze s /\
  split (_clean_text s) = split s /\
  _clean_text (_clean_text s) = _clean_text s.
Proof.
  assert (E : forall x, _clean_text x = String.concat " " (split x))
    by (intros x; now destruct x).
  assert (Hw : Forall word (split s)) by now apply split_from_words.
  assert (Hs : split (_clean_text s) = split s)
    by (rewrite (E s); now apply split_concat).
  repeat split; auto.
  - apply (concat_split_from "" s eq_refl).
  - now rewrite (E (_clean_text s)), Hs, <- (E s).
Qed.

End ComposerFacts.

(** ** Backup price store: ordered snapshots *)

Module SortEdges.
Import Backup SortFacts BackupFacts.

Lemma sort_keyed_ordered {A K : Type} (lt : K -> K -> result bool) (l : list (K * A)) :
  Sorted (not_after lt) l -> sort_keyed lt l = Ok l.
Proof.
  induction 1 as [|x l Hs IH Hd]; [reflexivity|].
  simpl. rewrite IH. simpl. destruct Hd as [|y l Hxy]; [reflexivity|].
  simpl. unfold not_after in Hxy. now rewrite Hxy.
Qed.

Section WithDatetime.
Context {D : Datetime}.

Lemma keyed_ordered (entries : list value) :
  Forall dated entries -> Sorted date_le entries ->
  exists keyed,
    mapM (fun x => k <- date_key x ;; Ok (k, x)) entries = Ok keyed /\
    map snd keyed = entries /\
    Forall (keyed_by date_key) keyed /\
    Sorted (not_after date_lt) keyed.
Proof.
  induction entries as [|x entries IH]; intros Hd Hs.
  - exists []. repeat split; constructor.
  - inversion Hd as [|? ? [t Ht] Hd']; subst.
    inversion Hs as [|? ? Hs' Hhd]; subst.
    destruct (IH Hd' Hs') as [keyed [Hm [Hmap [Hk Hsk]]]].
    exists ((t, x) :: keyed). simpl. rewrite Ht. simpl. rewrite Hm. simpl.
    repeat split; [now rewrite Hmap | now constructor |].
    constructor; [exact Hsk |].
    destruct keyed as [|[k y] keyed]; constructor.
    simpl in Hmap. subst entries. inversion Hhd as [|? ? Hxy]; subst.
    destruct Hxy as [ta [tb [Ha [Hb Hab]]]].
    inversion Hk as [|? ? Hky _]; subst. unfold keyed_by in Hky. simpl in Hky.
    unfold not_after, date_lt. simpl.
    rewrite Ht in Ha. injection Ha as <-. rewrite Hky in Hb. injection Hb as <-.
    now rewrite Hab.
Qed.

(** X16: a snapshot whose entries are dated and already in ascending order
    of date comes back as it is stored; in particular entries of the same
    date keep their order. *)
Theorem ordered_snapshot_unchanged (entries : list value) :
  Forall dated entries -> Sorted date_le entries ->
  get_backup_gold_data (Json (VList entries)) = Ok entries.
Proof.
  intros Hd Hs. rewrite get_backup_gold_data_json. simpl. unfold sorted.
  destruct (keyed_ordered entries Hd Hs) as [keyed [Hm [Hmap [_ Hsk]]]].
  rewrite Hm. simpl. rewrite (sort_keyed_ordered _ _ Hsk). simpl.
  now rewrite Hmap.
Qed.

End WithDatetime.

Lemma ordered_snapshot_unchanged_witness :
  get_backup_gold_data (D := Calendar.dates)
    (Json (VList [dated_entry "2024-01-15" 6000; dated_entry "2024-01-15" 6050;
                  dated_entry "2024-02-10" 6100])) =
  Ok [dated_entry "2024-01-15" 6000; dated_entry "2024-01-15" 6050;
      dated_entry "2024-02-10" 6100].
Proof.
  apply (ordered_snapshot_unchanged (D := Calendar.dates)).
  - repeat constructor; eexists; reflexivity.
  - repeat constructor; do 2 eexists; repeat split.
Defined.

End SortEdges.

(** ** Live price and price history *)

Module LiveEdges.
Import Backup LivePrice PriceHistory Trend TrendFacts TrendEdges BackupFacts.

Section WithDatetime.
Context {D : Datetime}.

(** X1: with a credential, a response that quotes a price is answered from
    the response alone: the price rounded to 2 decimals, tagged [live]; the
    snapshot file is not read, whatever it holds. *)
Theorem live_price_from_response (env : environment)
        (items : list (string * value)) (v : value) (p : float) :
  has_key (GOLD_API_KEY env) = true ->
  spot_response env = Ok (VDict items) ->
  lookup "price_gram_24k" items = Some v -> as_number v = Some p ->
  get_live_gold_price env =
    Ok (VDict [("source", VStr "live");
               ("current_price_inr_per_gram", VNum (round_float p 2))]).
Proof.
  intros Hk Hr Hl Hn. unfold get_live_gold_price, live_price, live_attempt.
  rewrite Hk, Hr. simpl. rewrite Hl. simpl. unfold round_value. now rewrite Hn.
Qed.

Lemma live_price_unquoted (env : environment) (data : value) :
  spot_response env = Ok data -> ~ quotes_price data -> live_price env = None.
Proof.
  intros Hr Hq. unfold live_price, live_attempt. rewrite Hr.
  destruct (has_key (GOLD_API_KEY env)); [| reflexivity]. simpl.
  destruct data as [| | | |l|items]; simpl; try reflexivity.
  - now destruct (contains "price_gram_24k" s).
  - now destruct (existsb _ l).
  - destruct (lookup "price_gram_24k" items) as [v|] eqn:Hl; simpl; [| reflexivity].
    unfold round_value. destruct (as_number v) as [p|] eqn:Hn; [| reflexivity].
    exfalso. apply Hq. now exists items, v, p.
Qed.

(** X2: a response of the spot endpoint that quotes no price (not an
    object, no [price_gram_24k], or one that is not a number) is dropped
    without a trace: the answer is the one given without a credential. *)
Theorem live_price_unquoted_falls_back (env : environment) (data : value) :
  spot_response env = Ok data -> ~ quotes_price data ->
  get_live_gold_price env =
  get_live_gold_price
    {| GOLD_API_KEY := None; spot_response := spot_response env;
       backup_file := backup_file env |}.
Proof.
  intros Hr Hq. unfold get_live_gold_price.
  now rewrite (live_price_unquoted env data Hr Hq).
Qed.

Lemma mapM_kept (entries : list value) :
  Forall quoted entries ->
  exists history,
    mapM rounded_entry entries = Ok history /\ Forall2 kept entries history.
Proof.
  induction 1 as [|x entries [d [p [Hd Hp]]] _ [history [Hm Hk]]]; simpl.
  - exists []. split; [reflexivity | constructor].
  - unfold rounded_entry at 1. rewrite Hd, Hp. simpl. rewrite Hm. simpl.
    eexists. split; [reflexivity |]. constructor; [| exact Hk].
    now exists d, p.
Qed.

(** X3: with a credential, a non-empty array of entries that each have a
    date and a number as price is answered from the response alone: one
    entry per entry, in order, with the date as it came and the price
    rounded to 2 decimals, tagged [live]. *)
Theorem live_history_from_response (env : environment) (response : result value)
        (entries : list value) (days : Z) :
  has_key (GOLD_API_KEY env) = true ->
  response = Ok (VList entries) -> entries <> [] -> Forall quoted entries ->
  exists history,
    get_gold_price_history env response days =
      Ok (VDict [("source", VStr "live"); ("history", VList history)]) /\
    Forall2 kept entries history.
Proof.
  intros Hk -> Hne Hq. destruct (mapM_kept entries Hq) as [history [Hm Hkept]].
  exists history. split; [| exact Hkept].
  destruct entries as [|x entries]; [contradiction|].
  unfold get_gold_price_history, live_history, live_history_attempt. rewrite Hk.
  cbn [bind truthy_list]. rewrite Hm. reflexivity.
Qed.

Lemma mapM_raises_in {A B : Type} (f : A -> result B) (l : list A) (x : A) (e : exn) :
  In x l -> f x = Raise e -> exists e', mapM f l = Raise e'.
Proof.
  induction l as [|y l IH]; simpl; [tauto|].
  intros [-> | Hin] Hx.
  - rewrite Hx. simpl. eauto.
  - destruct (f y); simpl; [| eauto].
    destruct (IH Hin Hx) as [e' ->]. simpl. eauto.
Qed.

(** X4: one entry of the live history that cannot be read (no date, no
    price, a price that is not a number) discards the whole response: the
    answer is the one given without a credential. *)
Theorem live_history_all_or_nothing (env : environment) (entries : list value)
        (entry : value) (e : exn) (days : Z) :
  In entry entries -> rounded_entry entry = Raise e ->
  get_gold_price_history env (Ok (VList entries)) days =
  get_gold_price_history
    {| GOLD_API_KEY := None; spot_response := spot_response env;
       backup_file := backup_file env |} (Ok (VList entries)) days.
Proof.
  intros Hin Hr. unfold get_gold_price_history, live_history, live_history_attempt.
  destruct (has_key (GOLD_API_KEY env)); [| reflexivity]. cbn [bind].
  destruct entries as [|x entries]; [reflexivity|]. cbn [truthy_list].
  destruct (mapM_raises_in rounded_entry (x :: entries) entry e Hin Hr) as [e' ->].
  reflexivity.
Qed.

(** X5: when the live attempt yields nothing and the backup store returns a
    series that is not empty, the history for [days >= 1] is the last [days]
    entries of the series, all of them if it has fewer, tagged [backup]. *)
Theorem history_from_backup (env : environment) (response : result value)
        (days : Z) (series : list value) :
  live_history env response = None ->
  get_backup_gold_data (backup_file env) = Ok series -> series <> [] ->
  1 <= days ->
  get_gold_price_history env response days =
    Ok (VDict [("source", VStr "backup");
               ("history", VList (trailing_points series days))]) /\
  (exists earlier, series = (earlier ++ trailing_points series days)%list) /\
  Z.of_nat (List.length (trailing_points series days)) =
    Z.min days (Z.of_nat (List.length series)).
Proof.
  intros Hl Hb Hne Hd. unfold get_gold_price_history. rewrite Hl, Hb. simpl.
  replace (truthy_list series) with true by now destruct series.
  split; [| split].
  - unfold trailing_points.
    destruct (Z.leb_spec days (Z.of_nat (List.length series))) as [Hle|Hgt].
    + replace (Z.of_nat (List.length series) <? days) with false
        by (symmetry; apply Z.ltb_ge; lia).
      rewrite trailing_is_trailing_points by exact Hd. unfold trailing_points.
      replace (Z.of_nat (List.length series) <? days) with false
        by (symmetry; apply Z.ltb_ge; lia).
      reflexivity.
    + replace (Z.of_nat (List.length series) <? days) with true
        by (symmetry; apply Z.ltb_lt; lia).
      reflexivity.
  - unfold trailing_points. destruct (Z.of_nat (List.length series) <? days).
    + now exists [].
    + rewrite firstn_rev, rev_involutive.
      exists (firstn (List.length series - Z.to_nat days) series).
      now rewrite firstn_skipn.
  - unfold trailing_points.
    destruct (Z.ltb_spec (Z.of_nat (List.length series)) days) as [Hlt|Hge]; [lia |].
    rewrite firstn_rev, rev_involutive, length_skipn. lia.
Qed.

(** X6: asking for 0 days gives the whole backup series, as
    [backup_data[-0:]] does, and asking for a negative number of days drops
    that many entries from the front of the series. *)
Theorem history_nonpositive_days (env : environment) (response : result value)
        (days : Z) (series : list value) :
  live_history env response = None ->
  get_backup_gold_data (backup_file env) = Ok series -> series <> [] ->
  days <= 0 ->
  get_gold_price_history env response days =
    Ok (VDict [("source", VStr "backup");
               ("history", VList (skipn (Z.to_nat (- days)) series))]).
Proof.
  intros Hl Hb Hne Hd. unfold get_gold_price_history. rewrite Hl, Hb. simpl.
  replace (truthy_list series) with true by now destruct series.
  replace (days <=? Z.of_nat (List.length series)) with true
    by (symmetry; apply Z.leb_le; lia).
  unfold trailing. replace (0 <? days) with false by (symmetry; apply Z.ltb_ge; lia).
  assert (E : skipn (Z.to_nat (Z.min (- days) (Z.of_nat (List.length series)))) series =
              skipn (Z.to_nat (- days)) series).
  { destruct (Z.le_ge_cases (- days) (Z.of_nat (List.length series))) as [Hle|Hge].
    - now rewrite Z.min_l.
    - rewrite Z.min_r by lia. rewrite Nat2Z.id, skipn_all.
      symmetry. apply skipn_all2. lia. }
  now rewrite E.
Qed.

End WithDatetime.

Lemma live_price_from_response_witness :
  get_live_gold_price (D := Calendar.dates)
    (online (Ok (VDict [("price_gram_24k", VNum (1234567 / 200)%float)])) NotJson) =
  Ok (VDict [("source", VStr "live");
             ("current_price_inr_per_gram",
              VNum (round_float (1234567 / 200)%float 2))]).
Proof.
  apply (live_price_from_response (D := Calendar.dates) _
           [("price_gram_24k", VNum (1234567 / 200)%float)]
           (VNum (1234567 / 200)%float)); reflexivity.
Defined.

Lemma live_price_unquoted_falls_back_witness :
  get_live_gold_price (D := Calendar.dates)
    (online (Ok (VDict [("price_gram_24k", VStr "6000")])) shuffled) =
  get_live_gold_price (D := Calendar.dates)
    {| GOLD_API_KEY := None;
       spot_response := Ok (VDict [("price_gram_24k", VStr "6000")]);
       backup_file := shuffled |}.
Proof.
  apply (live_price_unquoted_falls_back (D := Calendar.dates)
           (online (Ok (VDict [("price_gram_24k", VStr "6000")])) shuffled)
           (VDict [("price_gram_24k", VStr "6000")])).
  - reflexivity.
  - intros [items [v [p [E [Hl Hn]]]]]. injection E as <-.
    simpl in Hl. injection Hl as <-. discriminate.
Defined.

Lemma live_history_from_response_witness :
  exists history,
    get_gold_price_history (D := Calendar.dates)
      (online (Raise RequestException) NotJson)
      (Ok (VList [dated_entry "2024-03-01" (1234567 / 200)%float])) 30 =
      Ok (VDict [("source", VStr "live"); ("history", VList history)]) /\
    Forall2 kept [dated_entry "2024-03-01" (1234567 / 200)%float] history.
Proof.
  apply (live_history_from_response (D := Calendar.dates)).
  - reflexivity.
  - reflexivity.
  - discriminate.
  - repeat constructor. do 2 eexists. split; reflexivity.
Defined.

Lemma live_history_all_or_nothing_witness :
  get_gold_price_history (D := Calendar.dates) (online (Raise RequestException) shuffled)
    (Ok (VList [dated_entry "2024-03-01" 6200; VDict [("date", VStr "2024-03-02")]])) 30 =
  get_gold_price_history (D := Calendar.dates)
    {| GOLD_API_KEY := None; spot_response := Raise RequestException;
       backup_file := shuffled |}
    (Ok (VList [dated_entry "2024-03-01" 6200; VDict [("date", VStr "2024-03-02")]])) 30.
Proof.
  apply (live_history_all_or_nothing (D := Calendar.dates)
           (online (Raise RequestException) shuffled) _
           (VDict [("date", VStr "2024-03-02")]) (KeyError "price")).
  - right. left. reflexivity.
  - reflexivity.
Defined.

Lemma history_from_backup_witness :
  get_gold_price_history (D := Calendar.dates) (offline shuffled)
    (Raise RequestException) 2 =
    Ok (VDict [("source", VStr "backup");
               ("history",
                VList (trailing_points
                         [dated_entry "2024-01-15" 6000; dated_entry "2024-02-10" 6100;
                          dated_entry "2024-03-01" 6200] 2))]) /\
  (exists earlier,
     [dated_entry "2024-01-15" 6000; dated_entry "2024-02-10" 6100;
      dated_entry "2024-03-01" 6200] =
     (earlier ++ trailing_points
                   [dated_entry "2024-01-15" 6000; dated_entry "2024-02-10" 6100;
                    dated_entry "2024-03-01" 6200] 2)%list) /\
  Z.of_nat (List.length
              (trailing_points
                 [dated_entry "2024-01-15" 6000; dated_entry "2024-02-10" 6100;
                  dated_entry "2024-03-01" 6200] 2)) =
    Z.min 2 (Z.of_nat (List.length
                         [dated_entry "2024-01-15" 6000; dated_entry "2024-02-10" 6100;
                          dated_entry "2024-03-01" 6200])).
Proof.
  apply (history_from_backup (D := Calendar.dates) (offline shuffled)
           (Raise RequestException) 2).
  - reflexivity.
  - reflexivity.
  - discriminate.
  - lia.
Defined.

Lemma history_nonpositive_days_witness :
  get_gold_price_history (D := Calendar.dates) (offline shuffled)
    (Raise RequestException) 0 =
    Ok (VDict [("source", VStr "backup");
               ("history",
                VList (skipn (Z.to_nat (- 0))
                         [dated_entry "2024-01-15" 6000; dated_entry "2024-02-10" 6100;
                          dated_entry "2024-03-01" 6200]))]).
Proof.
  apply (history_nonpositive_days (D := Calendar.dates) (offline shuffled)
           (Raise RequestException) 0).
  - reflexivity.
  - reflexivity.
  - discriminate.
  - lia.
Defined.

End LiveEdges.

(** ** Query classifier: the pattern *)

Module GoldEdges.
Import Classifier WordFacts.

Lemma lower_app_split (a b m : string) :
  lower m = a ++ b -> exists m1 m2, m = m1 ++ m2 /\ lower m1 = a /\ lower m2 = b.
Proof.
  revert m; induction a as [|c a IH]; intros m E; simpl in E.
  - now exists "", m.
  - destruct m as [|d m]; [discriminate|]. simpl in E. injection E as Hc E.
    destruct (IH m E) as [m1 [m2 [-> [H1 H2]]]].
    exists (String d m1), m2. simpl. now rewrite Hc, H1.
Qed.

Lemma last_char_app_nonempty (pre m : string) :
  m <> "" -> last_char (pre ++ m) = last_char m.
Proof.
  intros Hm. induction pre as [|c pre IH]; [reflexivity|].
  change (String c pre ++ m) with (String c (pre ++ m)).
  destruct (pre ++ m) as [|d s] eqn:E.
  - destruct pre; [simpl in E; contradiction | discriminate].
  - exact IH.
Qed.

Lemma digital_gold_is_gold (q : string) :
  whole_word "digital gold" q -> whole_word "gold" q.
Proof.
  intros [pre [m [post [-> [Em [Hb Hp]]]]]].
  destruct (lower_app_split "digital " "gold" m Em) as [m1 [m2 [-> [H1 H2]]]].
  exists (pre ++ m1), m2, post. repeat split; auto.
  - now rewrite !append_assoc.
  - assert (Hne : m1 <> "") by (intros ->; discriminate).
    rewrite last_char_app_nonempty by exact Hne.
    now rewrite <- is_word_last_lower, H1.
Qed.

Lemma short_words_wordlike (lit : string) : In lit short_words -> wordlike lit.
Proof. intros [<- | [<- | []]]; repeat split. Qed.

Lemma search_short_words (q : string) :
  search_words short_words None q = true <->
  exists w, In w short_words /\ whole_word w q.
Proof.
  unfold whole_word. rewrite search_words_iff. split.
  - intros [pre [rest [lit [-> [Hin Hm]]]]].
    apply match_word_iff in Hm; [| now apply short_words_wordlike].
    destruct Hm as [m [post [-> [Em [Hb Hp]]]]].
    exists lit. split; [exact Hin|]. exists pre, m, post.
    unfold last_or in Hb. destruct (last_char pre); auto.
  - intros [w [Hin [pre [m [post [-> [Em [Hb Hp]]]]]]]].
    exists pre, (m ++ post), w. repeat split; auto.
    apply match_word_iff; [now apply short_words_wordlike|].
    exists m, post. repeat split; auto.
    unfold last_or. now destruct (last_char pre).
Qed.

(** The characterisation of the keyword test over the three branches. *)
Lemma search_gold_words (q : string) :
  _is_gold_by_keyword q = true <-> exists w, In w gold_words /\ whole_word w q.
Proof.
  unfold _is_gold_by_keyword, whole_word. rewrite search_words_iff. split.
  - intros [pre [rest [lit [-> [Hin Hm]]]]].
    apply match_word_iff in Hm; [| now apply gold_words_wordlike].
    destruct Hm as [m [post [-> [Em [Hb Hp]]]]].
    exists lit. split; [exact Hin|]. exists pre, m, post.
    unfold last_or in Hb. destruct (last_char pre); auto.
  - intros [w [Hin [pre [m [post [-> [Em [Hb Hp]]]]]]]].
    exists pre, (m ++ post), w. repeat split; auto.
    apply match_word_iff; [now apply gold_words_wordlike|].
    exists m, post. repeat split; auto.
    unfold last_or. now destruct (last_char pre).
Qed.

(** X17: the branch [\bdigital gold\b] of the pattern never decides: the
    test answers the same with the branches [gold] and [xau] alone. *)
Theorem digital_gold_branch_redundant (question : string) :
  _is_gold_by_keyword question = search_words ["gold"; "xau"] None question.
Proof.
  apply eq_true_iff_eq. fold short_words.
  rewrite search_gold_words, search_short_words. split.
  - intros [w [[<- | [<- | [<- | []]]] Hw]].
    + exists "gold". split; [now left | exact Hw].
    + exists "gold". split; [now left | now apply digital_gold_is_gold].
    + exists "xau". split; [right; now left | exact Hw].
  - intros [w [[<- | [<- | []]] Hw]].
    + exists "gold". split; [now left | exact Hw].
    + exists "xau". split; [right; right; now left | exact Hw].
Qed.

End GoldEdges.

(** ** The conversational endpoint *)

Module AssistantFacts.
Import Classifier Backup LivePrice Trend PriceHistory Composer Assistant.
Import TrendFacts.

Section WithDatetime.
Context {D : Datetime}.

(** X18: a question judged not to be about gold gets the fixed refusal,
    with the fixed suggestion and nudge; no price is fetched and no file is
    read, so nothing can fail. *)
Theorem other_question_refused (w : world) (question : string) :
  judged_other w question ->
  ask_kuber_ai w question =
    Ok {| is_gold_query := false; answer := refusal;
          extra_insights := Some please_ask;
          simplify_suggestion := Some suggestion; nudge_text := Some nudge |}.
Proof.
  unfold ask_kuber_ai, answer_question.
  intros [[Hg Hk] | [[g [e [Hg [Ha Hk]]]] | [g [text [Hg [Ha Hy]]]]]];
    rewrite Hg; try rewrite Ha; try rewrite Hk; try rewrite Hy.
  all: reflexivity.
Qed.

Lemma trend_insight_of_series (series : list value) :
  trend_insight_of (VList series) =
  if truthy_list series then
    short_pct <- analyze_trend series 7 ;;
    long_pct <- analyze_trend series
                  (if 30 <=? Z.of_nat (List.length series) then 30
                   else Z.of_nat (List.length series)) ;;
    Ok ("If we look up on the trend insights then over the last 7 days, gold has changed by "
        ++ format_f short_pct 2 ++ "%. Over the last 30 days, it changed by "
        ++ format_f long_pct 2 ++ "%.")
  else Ok "".
Proof.
  unfold trend_insight_of, analyze_trend_value, len. cbn [truthy].
  destruct (truthy_list series); [| reflexivity].
  now destruct (analyze_trend series 7).
Qed.

Lemma trend_insight_of_list (series : list value) (e : exn) :
  trend_insight_of (VList series) = Raise e ->
  series <> [] /\
  (analyze_trend series 7 = Raise e \/
   analyze_trend series
     (if 30 <=? Z.of_nat (List.length series) then 30
      else Z.of_nat (List.length series)) = Raise e).
Proof.
  rewrite trend_insight_of_series.
  destruct series as [|x series]; [discriminate|]. cbn [truthy_list].
  intros E. split; [discriminate|].
  destruct (analyze_trend (x :: series) 7) as [s|e1]; cbn [bind] in E.
  - right.
    destruct (analyze_trend (x :: series)
                (if 30 <=? Z.of_nat (List.length (x :: series)) then 30
                 else Z.of_nat (List.length (x :: series)))) as [l|e2];
      cbn [bind] in E; [discriminate | now injection E as ->].
  - left. now injection E as ->.
Qed.

Lemma ask_raises_cases (w : world) (question : string) (e : exn) :
  ask_kuber_ai w question = Raise e ->
  get_backup_gold_data (backup_file (prices w)) = Raise e \/
  exists series,
    get_backup_gold_data (backup_file (prices w)) = Ok series /\ series <> [] /\
    (analyze_trend series 7 = Raise e \/
     analyze_trend series
       (if 30 <=? Z.of_nat (List.length series) then 30
        else Z.of_nat (List.length series)) = Raise e).
Proof.
  unfold ask_kuber_ai.
  destruct (answer_question w question) as [r|e']; [discriminate|].
  unfold safety_net.
  destruct (get_backup_gold_data (backup_file (prices w))) as [series|e1];
    cbn [bind]; [| intros E; left; now injection E as ->].
  destruct (trend_insight_of (VList series)) as [t|e2] eqn:Ht; cbn [bind];
    [discriminate|].
  intros E. injection E as ->. right. exists series.
  destruct (trend_insight_of_list series e Ht) as [Hne Hr]. auto.
Qed.

(** X19: the endpoint raises only out of its safety net, and then for one
    of two reasons: the backup store raised, or the trend over the backup
    series did. *)
Theorem ask_raises_only (w : world) (question : string) (e : exn) :
  ask_kuber_ai w question = Raise e ->
  get_backup_gold_data (backup_file (prices w)) = Raise e \/
  exists series,
    get_backup_gold_data (backup_file (prices w)) = Ok series /\ series <> [] /\
    (analyze_trend series 7 = Raise e \/
     analyze_trend series
       (if 30 <=? Z.of_nat (List.length series) then 30
        else Z.of_nat (List.length series)) = Raise e).
Proof. apply ask_raises_cases. Qed.

(** X20: when the backup store returns a series of positively priced
    points, or an empty one (no snapshot file, a file that is not JSON), the
    endpoint answers whatever the network and the model do. *)
Theorem ask_answers (w : world) (question : string) (series : list value) :
  get_backup_gold_data (backup_file (prices w)) = Ok series ->
  Forall positive_price series ->
  exists response, ask_kuber_ai w question = Ok response.
Proof.
  intros Hb Hall.
  destruct (ask_kuber_ai w question) as [r|e] eqn:E; [eauto |].
  exfalso. destruct (ask_raises_cases w question e E) as [Hr | [s [Hs [Hne Hr]]]].
  - congruence.
  - rewrite Hb in Hs. injection Hs as <-.
    destruct (analyze_trend_returns series 7 Hne ltac:(lia) Hall) as [c7 H7].
    destruct (analyze_trend_returns series
                (if 30 <=? Z.of_nat (List.length series) then 30
                 else Z.of_nat (List.length series)) Hne) as [c30 H30]; auto.
    { destruct (Z.leb_spec 30 (Z.of_nat (List.length series))); [lia|].
      destruct series; [contradiction | simpl List.length; lia]. }
    destruct Hr; congruence.
Qed.

(** X21: without a model, a gold question that the keywords file under
    [prediction] never gets the regular reply once the history helper
    returns a tagged result: the trend is asked of that result, a [dict] of
    two keys, which raises, and the reply is the one of the safety net. *)
Theorem prediction_reaches_safety_net (w : world) (question : string)
        (current source history : value) :
  gemini_model w = None ->
  _is_gold_by_keyword question = true ->
  _keyword_classify question = "prediction" ->
  get_live_gold_price (prices w) = Ok current ->
  get_gold_price_history (prices w) (history_90d w) 90 =
    Ok (VDict [("source", source); ("history", history)]) ->
  ask_kuber_ai w question = safety_net w question.
Proof.
  intros Hg Hk Hc Hp Hh. unfold ask_kuber_ai, answer_question.
  rewrite Hg, Hk, Hc. unfold fetch.
  change (contains "current_price" "prediction") with false.
  change (contains "history" "prediction") with false.
  change (contains "prediction" "prediction") with true.
  cbv iota. rewrite Hp, Hh. reflexivity.
Qed.

End WithDatetime.

Lemma other_question_refused_witness :
  ask_kuber_ai (D := Calendar.dates)
    (unassisted (offline NotJson) (Raise RequestException) (Raise RequestException))
    "How is silver doing?" =
  Ok {| is_gold_query := false; answer := refusal;
        extra_insights := Some please_ask;
        simplify_suggestion := Some suggestion; nudge_text := Some nudge |}.
Proof.
  apply (other_question_refused (D := Calendar.dates)).
  left. split; reflexivity.
Defined.

Lemma ask_raises_only_witness :
  get_backup_gold_data (D := Calendar.dates)
    (Json (VList [VDict [("price", VNum 6000)]])) = Raise (KeyError "date") \/
  exists series,
    get_backup_gold_data (D := Calendar.dates)
      (Json (VList [VDict [("price", VNum 6000)]])) = Ok series /\ series <> [] /\
    (analyze_trend series 7 = Raise (KeyError "date") \/
     analyze_trend series
       (if 30 <=? Z.of_nat (List.length series) then 30
        else Z.of_nat (List.length series)) = Raise (KeyError "date")).
Proof.
  apply (ask_raises_only (D := Calendar.dates)
           (unassisted (offline (Json (VList [VDict [("price", VNum 6000)]])))
              (Raise RequestException) (Raise RequestException))
           "What is the gold price?").
  vm_compute. reflexivity.
Defined.

Lemma ask_answers_witness :
  exists response,
    ask_kuber_ai (D := Calendar.dates)
      (unassisted (offline shuffled) (Raise RequestException) (Raise RequestException))
      "What is the gold price?" = Ok response.
Proof.
  apply (ask_answers (D := Calendar.dates) _ _
           [dated_entry "2024-01-15" 6000; dated_entry "2024-02-10" 6100;
            dated_entry "2024-03-01" 6200]).
  - reflexivity.
  - repeat constructor; eexists; (split; reflexivity).
Defined.

Lemma prediction_reaches_safety_net_witness :
  ask_kuber_ai (D := Calendar.dates)
    (unassisted (offline shuffled) (Raise RequestException) (Raise RequestException))
    "Will gold rise?" =
  safety_net (D := Calendar.dates)
    (unassisted (offline shuffled) (Raise RequestException) (Raise RequestException))
    "Will gold rise?".
Proof.
  apply (prediction_reaches_safety_net (D := Calendar.dates) _ _
           (VDict [("source", VStr "backup"); ("current_price_inr_per_gram", VNum 6200)])
           (VStr "backup")
           (VList [dated_entry "2024-01-15" 6000; dated_entry "2024-02-10" 6100;
                   dated_entry "2024-03-01" 6200])); reflexivity.
Defined.

End AssistantFacts.

(** ** Backup price store: snapshots that are no array *)

Module SnapshotShapes.
Import Backup BackupFacts.

Section WithDatetime.
Context {D : Datetime}.

Lemma mapM_first_raises {A B : Type} (f : A -> result B) (x : A) (l : list A) (e : exn) :
  f x = Raise e -> mapM f (x :: l) = Raise e.
Proof. intros E. simpl. now rewrite E. Qed.

(** X22: of a snapshot that is JSON but no array, only the empty object and
    the empty string give a series, the empty one; an object or a string
    with content, a number, a boolean and [null] raise [TypeError]. *)
Theorem snapshot_not_an_array (data : value) :
  (forall entries, data <> VList entries) ->
  get_backup_gold_data (Json data) =
    match data with
    | VDict [] | VStr "" => Ok []
    | _ => Raise TypeError
    end.
Proof.
  intros Hna. rewrite get_backup_gold_data_json.
  destruct data as [| | |s|l|items]; try reflexivity.
  - destruct s as [|c s]; [reflexivity|]. simpl. unfold sorted.
    now rewrite (mapM_first_raises _ _ _ TypeError).
  - exfalso. now apply (Hna l).
  - destruct items as [|[k v] items]; [reflexivity|]. simpl. unfold sorted.
    now rewrite (mapM_first_raises _ _ _ TypeError).
Qed.

End WithDatetime.

Lemma snapshot_not_an_array_witness :
  get_backup_gold_data (D := Calendar.dates)
    (Json (VDict [("2024-01-15", VNum 6000)])) = Raise TypeError.
Proof.
  apply (snapshot_not_an_array (D := Calendar.dates) (VDict [("2024-01-15", VNum 6000)])).
  intros entries. discriminate.
Defined.

End SnapshotShapes.

(** ** The conversational endpoint: what every reply carries *)

Module ReplyFacts.
Import Classifier Backup LivePrice Trend PriceHistory Composer Assistant.

Section WithDatetime.
Context {D : Datetime}.

(** X23: every reply of the endpoint, the refusal and the one of the safety
    net included, carries the same suggestion and the same nudge, and has
    its insights set. *)
Theorem reply_carries_promotion (w : world) (question : string) (reply : KuberResponse) :
  ask_kuber_ai w question = Ok reply ->
  simplify_suggestion reply = Some suggestion /\
  nudge_text reply = Some nudge /\
  exists insights, extra_insights reply = Some insights.
Proof.
  unfold ask_kuber_ai.
  destruct (answer_question w question) as [r|e] eqn:Ha.
  - intros E. injection E as <-. unfold answer_question in Ha.
    match type of Ha with
    | bind ?X _ = _ => destruct X as [t|e]; [| discriminate]
    end.
    cbn [bind] in Ha.
    match type of Ha with
    | (let (_, _) := ?X in _) = _ => destruct X as [a i]
    end.
    injection Ha as <-. simpl. eauto.
  - unfold safety_net.
    destruct (get_backup_gold_data (backup_file (prices w))) as [series|e1];
      cbn [bind]; [| discriminate].
    destruct (trend_insight_of (VList series)) as [t|e2]; cbn [bind];
      [| discriminate].
    intros E. injection E as <-. simpl. eauto.
Qed.

End WithDatetime.

Lemma reply_carries_promotion_witness :
  exists reply,
    ask_kuber_ai (D := Calendar.dates)
      (unassisted (offline NotJson) (Raise RequestException) (Raise RequestException))
      "How is silver doing?" = Ok reply /\
    simplify_suggestion reply = Some suggestion /\
    nudge_text reply = Some nudge /\
    exists insights, extra_insights reply = Some insights.
Proof.
  eexists. split; [reflexivity |].
  apply (reply_carries_promotion (D := Calendar.dates)
           (unassisted (offline NotJson) (Raise RequestException) (Raise RequestException))
           "How is silver doing?").
  reflexivity.
Defined.

End ReplyFacts.
